(** * pytorch-wrapper example notebooks: a shallow embedding

    The two notebooks under [examples/] define three Python classes on top of
    the wrapper library:

    - [ManhattanDistanceEvaluator] (custom evaluator notebook): [reset],
      [step], [calculate];
    - [TwoSpiralDataset] (two spiral notebook): [__init__], [__getitem__],
      [__len__];
    - [Model] (two spiral notebook): [__init__], [forward].

    Python objects are mutated in place and any call may raise, so methods
    are embedded in a state-and-exception monad over the object they are
    called on.

    The evaluator is embedded twice.  [Evaluator] carries the numbers by
    exact rationals [Q] and tensors of at most one dimension; it serves
    the statements about the state of the object and the shapes of the
    arrays, which do not depend on the arithmetic.  [NumpyEvaluator] is
    the same code over tensors of any dimension and over numpy's own
    arithmetic, taken as it is (dtypes, conversion, subtraction, absolute
    value and sum are parameters): it serves the statements about the
    value of the score. *)

From Stdlib Require Import ZArith QArith Qabs Ascii String Lia.
From stdpp Require Import gmap strings list fin_maps.

Local Open Scope string_scope.

(** ** Python exceptions and the method monad *)

Module Py.

(** The exceptions the embedded code can meet, named by their cause. *)
Inductive exn : Type :=
| RequestException (reason : string)
    (* whatever [requests.get] raised *)
| UnpackError (got : nat)
    (* ValueError: [got] values unpacked into three names *)
| FloatValueError (text : string)
    (* ValueError: could not convert string to float *)
| KeyError (key : string)
    (* dict lookup of a missing key *)
| IndexError (index : Z)
    (* numpy index out of bounds *)
| OverflowError (index : Z)
    (* numpy index that does not fit a C integer *)
| NotIterable
    (* TypeError: [list.extend] of a float *)
| NoToList
    (* AttributeError: a dict has no attribute [tolist] *)
| BadTensorIndex (key : string)
    (* a tensor indexed by a string key *)
| BroadcastError (n m : nat).
    (* ValueError: operands could not be broadcast together *)

Inductive result (A : Type) : Type :=
| Ok (a : A)
| Raise (e : exn).
Arguments Ok {A} a.
Arguments Raise {A} e.

(** A method of an object of type [S]: it returns or raises, and in both
    cases leaves the object in some state. *)
Definition M (S A : Type) : Type := S -> result A * S.

Definition ret {S A} (a : A) : M S A := fun s => (Ok a, s).

Definition raise {S A} (e : exn) : M S A := fun s => (Raise e, s).

Definition bind {S A B} (m : M S A) (k : A -> M S B) : M S B :=
  fun s =>
    match m s with
    | (Ok a, s') => k a s'
    | (Raise e, s') => (Raise e, s')
    end.

Definition get {S} : M S S := fun s => (Ok s, s).

Definition modify {S} (f : S -> S) : M S unit := fun s => (Ok tt, f s).

Definition lift {S A} (r : result A) : M S A := fun s => (r, s).

(** The state a method leaves behind, whatever its outcome. *)
Definition exec {S A} (m : M S A) (s : S) : S := snd (m s).

Definition outcome {S A} (m : M S A) (s : S) : result A := fst (m s).

(** A method that only reads: whatever it does, the object stays. *)
Definition read_only {S A} (m : M S A) : Prop := forall s, exec m s = s.

End Py.

Import Py.

Declare Scope py_scope.
Delimit Scope py_scope with py.
Notation "'do' x <- m ; k" := (bind m (fun x => k))
  (at level 10, x name, m at level 100, k at level 200) : py_scope.
Notation "m ;; k" := (bind m (fun _ => k))
  (at level 100, k at level 200, right associativity) : py_scope.

(** ** The custom evaluator *)

Module Evaluator.

(** A tensor as [step] meets it: a 0-d tensor or a 1-d tensor of floats. *)
Inductive Tensor : Type :=
| T0 (x : Q)
| T1 (xs : list Q).

(** What [Tensor.tolist()] returns: a bare float for a 0-d tensor, a list
    of floats for a 1-d one. *)
Inductive PyVal : Type :=
| PyFloat (x : Q)
| PyList (xs : list Q).

Definition tolist (t : Tensor) : PyVal :=
  match t with
  | T0 x => PyFloat x
  | T1 xs => PyList xs
  end.

(** The model's output handed to [step]: a tensor, or a dict of tensors
    when the model has several outputs. *)
Inductive ModelOutput : Type :=
| OutTensor (t : Tensor)
| OutDict (d : gmap string Tensor).

(** [pytorch_wrapper.evaluators.GenericEvaluatorResults]: a record of the
    four constructor arguments. *)
Record GenericEvaluatorResults : Type := {
  score : Q;
  label : string;
  score_format : string;
  is_max_better : bool
}.

Record ManhattanDistanceEvaluator : Type := {
  _model_output_key : option string;
  _batch_target_key : string;
  _outputs : list Q;
  _targets : list Q
}.

Definition set_outputs (l : list Q) (self : ManhattanDistanceEvaluator) :=
  {| _model_output_key := _model_output_key self;
     _batch_target_key := _batch_target_key self;
     _outputs := l;
     _targets := _targets self |}.

Definition set_targets (l : list Q) (self : ManhattanDistanceEvaluator) :=
  {| _model_output_key := _model_output_key self;
     _batch_target_key := _batch_target_key self;
     _outputs := _outputs self;
     _targets := l |}.

Local Open Scope py_scope.

(** [reset]: both lists are rebound to fresh empty lists. *)
Definition reset : M ManhattanDistanceEvaluator unit :=
  modify (set_outputs []) ;;
  modify (set_targets []).

(** [__init__(model_output_key=None, batch_target_key='target')]: the two
    keys are stored and [reset] is called on the new object. *)
Definition __init__ (model_output_key : option string)
    (batch_target_key : string) : ManhattanDistanceEvaluator :=
  exec reset
    {| _model_output_key := model_output_key;
       _batch_target_key := batch_target_key;
       _outputs := [];
       _targets := [] |}.

Definition default_batch_target_key : string := "target".

(** [output[key]] *)
Definition output_getitem (output : ModelOutput) (key : string)
    : result ModelOutput :=
  match output with
  | OutDict d =>
      match d !! key with
      | Some t => Ok (OutTensor t)
      | None => Raise (KeyError key)
      end
  | OutTensor _ => Raise (BadTensorIndex key)
  end.

(** [output.tolist()] *)
Definition output_tolist (output : ModelOutput) : result PyVal :=
  match output with
  | OutTensor t => Ok (tolist t)
  | OutDict _ => Raise NoToList
  end.

(** [batch[key]] *)
Definition batch_getitem (batch : gmap string Tensor) (key : string)
    : result Tensor :=
  match batch !! key with
  | Some t => Ok t
  | None => Raise (KeyError key)
  end.

(** [self._outputs.extend(v)] and [self._targets.extend(v)]: in place, and
    only a list can be iterated. *)
Definition extend_outputs (v : PyVal) : M ManhattanDistanceEvaluator unit :=
  match v with
  | PyList xs => modify (fun self => set_outputs (_outputs self ++ xs) self)
  | PyFloat _ => raise NotIterable
  end.

Definition extend_targets (v : PyVal) : M ManhattanDistanceEvaluator unit :=
  match v with
  | PyList xs => modify (fun self => set_targets (_targets self ++ xs) self)
  | PyFloat _ => raise NotIterable
  end.

(** [step(output, batch, last_activation=None)]; [last_activation] is not
    used by the body. *)
Definition step (output : ModelOutput) (batch : gmap string Tensor)
    : M ManhattanDistanceEvaluator unit :=
  do self <- get;
  do output <- match _model_output_key self with
               | Some key => lift (output_getitem output key)
               | None => ret output
               end;
  do v <- lift (output_tolist output);
  extend_outputs v ;;
  do self <- get;
  do t <- lift (batch_getitem batch (_batch_target_key self));
  extend_targets (tolist t).

(** [np.array(a) - np.array(b)] on 1-d arrays, with numpy's broadcasting:
    equal lengths subtract pointwise, a length-one operand is stretched,
    anything else raises. *)
Definition np_subtract (a b : list Q) : result (list Q) :=
  if decide (length a = length b) then Ok (zip_with Qminus a b)
  else match a, b with
       | [x], _ => Ok (map (fun y => x - y)%Q b)
       | _, [y] => Ok (map (fun x => x - y)%Q a)
       | _, _ => Raise (BroadcastError (length a) (length b))
       end.

Definition np_abs (a : list Q) : list Q := map Qabs a.

Definition np_sum (a : list Q) : Q := fold_left Qplus a 0%Q.

(** [calculate]: reads the two lists and builds the results object. *)
Definition calculate : M ManhattanDistanceEvaluator GenericEvaluatorResults :=
  do self <- get;
  do diff <- lift (np_subtract (_outputs self) (_targets self));
  let mean_distance := np_sum (np_abs diff) in
  ret {| score := mean_distance;
         label := "manh-dist";
         score_format := "%f";
         is_max_better := false |}.

(** The object after a sequence of [step] calls, one per batch, in order.
    A call that raises leaves behind what it had appended before raising. *)
Definition steps (calls : list (ModelOutput * gmap string Tensor))
    (self : ManhattanDistanceEvaluator) : ManhattanDistanceEvaluator :=
  fold_left (fun s c => exec (step (fst c) (snd c)) s) calls self.

(** *** What the statements about the evaluator are phrased with *)

(** The call [step(output, batch)] carries the outputs [xs] and the
    targets [ys]: the model's output, under the configured key when there
    is one, is the 1-d tensor [xs], and the batch holds the 1-d tensor [ys]
    under the target key. *)
Definition carries (key : option string) (target_key : string)
    (call : ModelOutput * gmap string Tensor) (xs ys : list Q) : Prop :=
  match key with
  | None => fst call = OutTensor (T1 xs)
  | Some k => exists d, fst call = OutDict d /\ d !! k = Some (T1 xs)
  end /\
  snd call !! target_key = Some (T1 ys).

(** The object after a successful call: both lists grown at the end. *)
Definition grown (xs ys : list Q) (self : ManhattanDistanceEvaluator)
    : ManhattanDistanceEvaluator :=
  set_targets (_targets self ++ ys) (set_outputs (_outputs self ++ xs) self).

(** The call records the (output, target) pairs [ps]. *)
Definition records (key : option string) (target_key : string)
    (call : ModelOutput * gmap string Tensor) (ps : list (Q * Q)) : Prop :=
  carries key target_key call (map fst ps) (map snd ps).

(** The output side of [carries]: the model's output, under the
    configured key when there is one, is the 1-d tensor [xs]. *)
Definition yields (key : option string) (output : ModelOutput)
    (xs : list Q) : Prop :=
  match key with
  | None => output = OutTensor (T1 xs)
  | Some k => exists d, output = OutDict d /\ d !! k = Some (T1 xs)
  end.

(** The evaluator with the roles of its two lists exchanged. *)
Definition swapped (self : ManhattanDistanceEvaluator)
    : ManhattanDistanceEvaluator :=
  {| _model_output_key := _model_output_key self;
     _batch_target_key := _batch_target_key self;
     _outputs := _targets self;
     _targets := _outputs self |}.

End Evaluator.

(** ** The custom evaluator, in numpy's arithmetic *)

Module NumpyEvaluator.

Local Open Scope py_scope.

Section Values.

(** The numbers at the leaves of what [tolist()] returns: Python floats
    and ints, as they are. *)
Variable Num : Type.

Set Warnings "-register-all".

(** A tensor: a number when it has no dimension, its rows along the first
    axis otherwise. *)
Inductive Tensor : Type :=
| T0 (x : Num)
| TN (rows : list Tensor).

(** What [Tensor.tolist()] returns: a bare number for a 0-d tensor, a
    list, of lists when there is more than one dimension, otherwise. *)
Inductive PyVal : Type :=
| PyNum (x : Num)
| PyList (xs : list PyVal).

Fixpoint tolist (t : Tensor) : PyVal :=
  match t with
  | T0 x => PyNum x
  | TN rows => PyList (map tolist rows)
  end.

(** The 1-d tensor of the numbers [xs]. *)
Definition T1 (xs : list Num) : Tensor := TN (map T0 xs).

Inductive ModelOutput : Type :=
| OutTensor (t : Tensor)
| OutDict (d : gmap string Tensor).

(** numpy as [calculate] uses it.  [np.array] of a list of numbers picks
    one dtype for the whole list and converts every number to it; [-]
    and [np.abs] work element by element, [np.sum] reduces a 1-d array
    to one element.  What numpy makes of lists that hold lists (arrays
    of two or more dimensions, ragged lists) is [nd_score]. *)
Record Numpy : Type := {
  DType : Type;
  Elem : Type;
  dtype_of : list Num -> DType;
  cast : DType -> Num -> Elem;
  subtract : Elem -> Elem -> Elem;
  absolute : Elem -> Elem;
  np_sum : list Elem -> Elem;
  nd_score : list PyVal -> list PyVal -> result Elem
}.

Record GenericEvaluatorResults (S : Type) : Type := {
  score : S;
  label : string;
  score_format : string;
  is_max_better : bool
}.

Record ManhattanDistanceEvaluator : Type := {
  _model_output_key : option string;
  _batch_target_key : string;
  _outputs : list PyVal;
  _targets : list PyVal
}.

Definition set_outputs (l : list PyVal) (self : ManhattanDistanceEvaluator) :=
  {| _model_output_key := _model_output_key self;
     _batch_target_key := _batch_target_key self;
     _outputs := l;
     _targets := _targets self |}.

Definition set_targets (l : list PyVal) (self : ManhattanDistanceEvaluator) :=
  {| _model_output_key := _model_output_key self;
     _batch_target_key := _batch_target_key self;
     _outputs := _outputs self;
     _targets := l |}.

Definition reset : M ManhattanDistanceEvaluator unit :=
  modify (set_outputs []) ;;
  modify (set_targets []).

Definition __init__ (model_output_key : option string)
    (batch_target_key : string) : ManhattanDistanceEvaluator :=
  exec reset
    {| _model_output_key := model_output_key;
       _batch_target_key := batch_target_key;
       _outputs := [];
       _targets := [] |}.

(** [output[key]] *)
Definition output_getitem (output : ModelOutput) (key : string)
    : result ModelOutput :=
  match output with
  | OutDict d =>
      match d !! key with
      | Some t => Ok (OutTensor t)
      | None => Raise (KeyError key)
      end
  | OutTensor _ => Raise (BadTensorIndex key)
  end.

(** [output.tolist()] *)
Definition output_tolist (output : ModelOutput) : result PyVal :=
  match output with
  | OutTensor t => Ok (tolist t)
  | OutDict _ => Raise NoToList
  end.

(** [batch[key]] *)
Definition batch_getitem (batch : gmap string Tensor) (key : string)
    : result Tensor :=
  match batch !! key with
  | Some t => Ok t
  | None => Raise (KeyError key)
  end.

(** [self._outputs.extend(v)] and [self._targets.extend(v)]: the elements
    of a list are appended as they are, numbers or lists; a bare number
    cannot be iterated. *)
Definition extend_outputs (v : PyVal) : M ManhattanDistanceEvaluator unit :=
  match v with
  | PyList xs => modify (fun self => set_outputs (_outputs self ++ xs) self)
  | PyNum _ => raise NotIterable
  end.

Definition extend_targets (v : PyVal) : M ManhattanDistanceEvaluator unit :=
  match v with
  | PyList xs => modify (fun self => set_targets (_targets self ++ xs) self)
  | PyNum _ => raise NotIterable
  end.

Definition step (output : ModelOutput) (batch : gmap string Tensor)
    : M ManhattanDistanceEvaluator unit :=
  do self <- get;
  do output <- match _model_output_key self with
               | Some key => lift (output_getitem output key)
               | None => ret output
               end;
  do v <- lift (output_tolist output);
  extend_outputs v ;;
  do self <- get;
  do t <- lift (batch_getitem batch (_batch_target_key self));
  extend_targets (tolist t).

Definition steps (calls : list (ModelOutput * gmap string Tensor))
    (self : ManhattanDistanceEvaluator) : ManhattanDistanceEvaluator :=
  fold_left (fun s c => exec (step (fst c) (snd c)) s) calls self.

(** The numbers of a list that holds numbers only. *)
Fixpoint flat (l : list PyVal) : option (list Num) :=
  match l with
  | [] => Some []
  | PyNum x :: l' =>
      match flat l' with
      | Some xs => Some (x :: xs)
      | None => None
      end
  | PyList _ :: _ => None
  end.

Section Calculate.

Variable np : Numpy.

(** [np.array(l)] for a list of numbers: a 1-d array of as many
    elements, all of the dtype numpy picks for the list. *)
Definition np_array (l : list Num) : list (Elem np) :=
  map (cast np (dtype_of np l)) l.

(** [a - b] on 1-d arrays: the broadcasting rule on the lengths, the
    subtraction of numpy on the elements. *)
Definition np_subtract (a b : list (Elem np)) : result (list (Elem np)) :=
  if decide (length a = length b) then Ok (zip_with (subtract np) a b)
  else match a, b with
       | [x], _ => Ok (map (fun y => subtract np x y) b)
       | _, [y] => Ok (map (fun x => subtract np x y) a)
       | _, _ => Raise (BroadcastError (length a) (length b))
       end.

Definition np_abs (a : list (Elem np)) : list (Elem np) :=
  map (absolute np) a.

(** [np.sum(np.abs(np.array(outputs) - np.array(targets)))] *)
Definition manhattan (outputs targets : list PyVal) : result (Elem np) :=
  match flat outputs, flat targets with
  | Some a, Some b =>
      match np_subtract (np_array a) (np_array b) with
      | Ok diff => Ok (np_sum np (np_abs diff))
      | Raise e => Raise e
      end
  | _, _ => nd_score np outputs targets
  end.

Definition calculate
    : M ManhattanDistanceEvaluator (GenericEvaluatorResults (Elem np)) :=
  do self <- get;
  do mean_distance <- lift (manhattan (_outputs self) (_targets self));
  ret {| score := mean_distance;
         label := "manh-dist";
         score_format := "%f";
         is_max_better := false |}.

End Calculate.

(** *** What the statements are phrased with *)

(** The output side of a call: the model's output, under the configured
    key when there is one, is the tensor [t]. *)
Definition yields (key : option string) (output : ModelOutput)
    (t : Tensor) : Prop :=
  match key with
  | None => output = OutTensor t
  | Some k => exists d, output = OutDict d /\ d !! k = Some t
  end.

(** The call records the (output, target) pairs [ps]: its output side is
    the 1-d tensor of the outputs and its batch holds the 1-d tensor of
    the targets under the target key. *)
Definition records (key : option string) (target_key : string)
    (call : ModelOutput * gmap string Tensor) (ps : list (Num * Num)) : Prop :=
  yields key (fst call) (T1 (map fst ps)) /\
  snd call !! target_key = Some (T1 (map snd ps)).

(** The object after a returning call: both lists grown at the end. *)
Definition grown (xs ys : list PyVal) (self : ManhattanDistanceEvaluator)
    : ManhattanDistanceEvaluator :=
  set_targets (_targets self ++ ys) (set_outputs (_outputs self ++ xs) self).

(** The sum over the pairs of the absolute difference, in numpy's
    arithmetic: every output and every target converted to the dtype of
    its array, numpy's [-] and [np.abs] on each pair, numpy's [np.sum]
    over the results in the order of the pairs. *)
Definition sum_abs_diff (np : Numpy) (ps : list (Num * Num)) : Elem np :=
  let dtype_outputs := dtype_of np (map fst ps) in
  let dtype_targets := dtype_of np (map snd ps) in
  np_sum np
    (map (fun p => absolute np (subtract np (cast np dtype_outputs (fst p))
                                  (cast np dtype_targets (snd p))))
       ps).

End Values.

Arguments T0 {Num} x.
Arguments TN {Num} rows.
Arguments PyNum {Num} x.
Arguments PyList {Num} xs.
Arguments tolist {Num} t.
Arguments T1 {Num} xs.
Arguments OutTensor {Num} t.
Arguments OutDict {Num} d.
Arguments DType {Num} _.
Arguments Elem {Num} _.
Arguments dtype_of {Num} _ _.
Arguments cast {Num} _ _ _.
Arguments subtract {Num} _ _ _.
Arguments absolute {Num} _ _.
Arguments np_sum {Num} _ _.
Arguments nd_score {Num} _ _ _.
Arguments score {S} _.
Arguments label {S} _.
Arguments score_format {S} _.
Arguments is_max_better {S} _.
Arguments _model_output_key {Num} _.
Arguments _batch_target_key {Num} _.
Arguments _outputs {Num} _.
Arguments _targets {Num} _.
Arguments set_outputs {Num} l self.
Arguments set_targets {Num} l self.
Arguments reset {Num}.
Arguments __init__ {Num} model_output_key batch_target_key.
Arguments output_getitem {Num} output key.
Arguments output_tolist {Num} output.
Arguments batch_getitem {Num} batch key.
Arguments extend_outputs {Num} v.
Arguments extend_targets {Num} v.
Arguments step {Num} output batch.
Arguments steps {Num} calls self.
Arguments flat {Num} l.
Arguments np_array {Num} np l.
Arguments np_subtract {Num} np a b.
Arguments np_abs {Num} np a.
Arguments manhattan {Num} np outputs targets.
Arguments calculate {Num} np.
Arguments yields {Num} key output t.
Arguments records {Num} key target_key call ps.
Arguments grown {Num} xs ys self.
Arguments sum_abs_diff {Num} np ps.

End NumpyEvaluator.

(** ** The two spiral notebook: the dataset *)

Module Dataset.

Local Open Scope py_scope.

(** *** Text and list primitives of the Python runtime *)

Definition newline : ascii := ascii_of_nat 10.
Definition tab : ascii := ascii_of_nat 9.

(** [s.split(sep)] for a one-character separator: the pieces between the
    separators, empty pieces included; never an empty list. *)
Fixpoint split (sep : ascii) (s : string) : list string :=
  match s with
  | EmptyString => [EmptyString]
  | String c s' =>
      if Ascii.eqb c sep then EmptyString :: split sep s'
      else match split sep s' with
           | w :: ws => String c w :: ws
           | [] => [String c EmptyString]
           end
  end.

(** A slice bound [i] of a list of length [n]: negative bounds count from
    the end, and every bound is clamped to [0..n]. *)
Definition slice_bound (n : nat) (i : Z) : nat :=
  if (i <? 0)%Z then Z.to_nat (Z.max 0 (Z.of_nat n + i))
  else Nat.min n (Z.to_nat i).

(** [l[start:stop]] *)
Definition slice {A} (l : list A) (start stop : Z) : list A :=
  let lo := slice_bound (length l) start in
  let hi := slice_bound (length l) stop in
  take (hi - lo) (drop lo l).

(** [a, b, c = fields] *)
Definition unpack3 (fields : list string) : result (string * string * string) :=
  match fields with
  | [a; b; c] => Ok (a, b, c)
  | _ => Raise (UnpackError (length fields))
  end.

(** numpy turns an integer index into a 64-bit C integer: one that does
    not fit raises OverflowError, one that fits and is out of bounds
    raises IndexError. *)
Definition fits_intp (i : Z) : bool :=
  ((-9223372036854775808 <=? i)%Z && (i <=? 9223372036854775807)%Z)%bool.

Definition index_exn (i : Z) : exn :=
  if fits_intp i then IndexError i else OverflowError i.

(** [a[i]] on the first axis of a numpy array of length [n]: indices
    [-n..n-1] are in bounds, negative ones count from the end.  An array
    has fewer than 2^63 elements, so an index in bounds fits a C integer:
    the bounds are looked at first. *)
Definition np_getitem {A} (a : list A) (i : Z) : result A :=
  let n := Z.of_nat (length a) in
  let j := if (i <? 0)%Z then (i + n)%Z else i in
  if ((0 <=? j)%Z && (j <? n)%Z)%bool then
    match a !! Z.to_nat j with
    | Some x => Ok x
    | None => Raise (index_exn i)
    end
  else Raise (index_exn i).

Definition url : string :=
  "https://raw.githubusercontent.com/jkoutsikakis/datasets/master/two_spiral_dataset/two_spiral_dataset.tsv".

Section World.

(** Python floats, the [float()] builtin on strings, the conversion to
    [float32] done by [np.array(..., dtype='float32')], and the text of
    the response [requests.get] returns for a URL. *)
Variable F : Type.
Variable py_float : string -> result F.
Variable float32 : F -> F.
Variable requests_get : string -> result string.

(** The two Python lists filled by the loop of [__init__]. *)
Record Lists : Type := {
  l_pos : list (F * F);
  l_target : list F
}.

Definition pos_append (p : F * F) : M Lists unit :=
  modify (fun s => {| l_pos := l_pos s ++ [p]; l_target := l_target s |}).

Definition target_append (t : F) : M Lists unit :=
  modify (fun s => {| l_pos := l_pos s; l_target := l_target s ++ [t] |}).

(** The body of the [for] loop, for one line. *)
Definition parse_line (line : string) : M Lists unit :=
  do fields <- lift (unpack3 (split tab line));
  let '(pos_x, pos_y, cur_target) := fields in
  do x <- lift (py_float pos_x);
  do y <- lift (py_float pos_y);
  pos_append (x, y) ;;
  do t <- lift (py_float cur_target);
  target_append t.

(** The [for] loop: the first line that raises ends it. *)
Fixpoint for_lines (lines : list string) : M Lists unit :=
  match lines with
  | [] => ret tt
  | line :: rest => parse_line line ;; for_lines rest
  end.

(** The lines the loop runs over: [text.split('\n')[1:-1]]. *)
Definition parsed_lines (text : string) : list string :=
  slice (split newline text) 1 (-1).

Record TwoSpiralDataset : Type := {
  pos : list (F * F);
  target : list F
}.

(** [TwoSpiralDataset()]: the new object, or the exception raised on the
    way. *)
Definition __init__ : result TwoSpiralDataset :=
  match requests_get url with
  | Raise e => Raise e
  | Ok text =>
      match for_lines (parsed_lines text) {| l_pos := []; l_target := [] |} with
      | (Raise e, _) => Raise e
      | (Ok _, s) =>
          Ok {| pos := map (fun p => (float32 (fst p), float32 (snd p))) (l_pos s);
                target := map float32 (l_target s) |}
      end
  end.

(** The values of the dict [__getitem__] returns: a row of [pos], or an
    element of [target]. *)
Inductive Item : Type :=
| Row (x y : F)
| Scalar (t : F).

Definition __getitem__ (item_index : Z)
    : M TwoSpiralDataset (gmap string Item) :=
  do self <- get;
  do p <- lift (np_getitem (pos self) item_index);
  do t <- lift (np_getitem (target self) item_index);
  ret (<["input" := Row (fst p) (snd p)]> (<["target" := Scalar t]> ∅)).

Definition __len__ : M TwoSpiralDataset nat :=
  do self <- get;
  ret (length (target self)).

End World.

Arguments l_pos {F} _.
Arguments l_target {F} _.
Arguments pos {F} _.
Arguments target {F} _.
Arguments Row {F} x y.
Arguments Scalar {F} t.
Arguments parse_line {F} py_float line.
Arguments for_lines {F} py_float lines.
Arguments __init__ {F} py_float float32 requests_get.
Arguments __getitem__ {F} item_index.
Arguments __len__ {F}.

(** *** What the statements about the dataset are phrased with *)

(** [line] parses into the record [(x, y, t)]: three tab-separated fields,
    each accepted by [float()]. *)
Definition parses {F} (py_float : string -> result F) (line : string)
    (r : F * F * F) : Prop :=
  exists a b c,
    split tab line = [a; b; c] /\
    py_float a = Ok (fst (fst r)) /\
    py_float b = Ok (snd (fst r)) /\
    py_float c = Ok (snd r).

(** [line] is a well-formed record line. *)
Definition line_ok {F} (py_float : string -> result F) (line : string) : Prop :=
  exists r, parses py_float line r.

(** [line] makes the loop body raise [e]: the unpacking of its fields
    does, or [float()] does on one of them. *)
Definition line_raises {F} (py_float : string -> result F) (line : string)
    (e : exn) : Prop :=
  (length (split tab line) <> 3 /\ e = UnpackError (length (split tab line))) \/
  (exists field, field ∈ split tab line /\ py_float field = Raise e).

(** The two lists after the records [rs] were appended, and the arrays
    made of them. *)
Definition appended {F} (s : Lists F) (rs : list (F * F * F)) : Lists F :=
  {| l_pos := l_pos s ++ map fst rs; l_target := l_target s ++ map snd rs |}.

Definition stored {F} (float32 : F -> F) (rs : list (F * F * F))
    : TwoSpiralDataset F :=
  {| pos := map (fun r => (float32 (fst (fst r)), float32 (snd (fst r)))) rs;
     target := map (fun r => float32 (snd r)) rs |}.

(** The lines of a text as [str.splitlines] counts them: the pieces
    between newlines, without the empty piece after a final newline. *)
Definition text_lines (text : string) : list string :=
  match reverse (split newline text) with
  | EmptyString :: rest => reverse rest
  | _ => split newline text
  end.

(** The dict [{'input': [x, y], 'target': t}]. *)
Definition example {F} (x y t : F) : gmap string (Item F) :=
  <["input" := Row x y]> (<["target" := Scalar t]> ∅).

(** One stored record per line of the fetched text. *)
Definition one_record_per_line {F} (py_float : string -> result F)
    (float32 : F -> F) (requests_get : string -> result string) : Prop :=
  forall text ds,
    requests_get url = Ok text ->
    __init__ py_float float32 requests_get = Ok ds ->
    outcome __len__ ds = Ok (length (text_lines text)).

(** [sep.join(pieces)] *)
Fixpoint join (sep : ascii) (pieces : list string) : string :=
  match pieces with
  | [] => EmptyString
  | [p] => p
  | p :: ps => p ++ String sep (join sep ps)
  end.

(** How many times the character [c] occurs in [s]. *)
Fixpoint occurrences (c : ascii) (s : string) : nat :=
  match s with
  | EmptyString => 0
  | String c' s' => (if Ascii.eqb c' c then 1 else 0) + occurrences c s'
  end.

End Dataset.

(** ** The two spiral notebook: the model *)

Module Net.

Local Open Scope py_scope.

Section Layers.

Variable F : Type.

(** A tensor: its shape and its elements in row-major order. *)
Record Tensor : Type := {
  shape : list nat;
  data : list F
}.

Definition numel (sh : list nat) : nat := fold_right Nat.mul 1 sh.

Definition well_shaped (t : Tensor) : Prop :=
  length (data t) = numel (shape t).

(** [Tensor.squeeze()]: every dimension of size one is dropped, the
    elements stay. *)
Definition squeeze (t : Tensor) : Tensor :=
  {| shape := filter (fun d => d <> 1) (shape t);
     data := data t |}.

Inductive Activation : Type :=
| ReLU.

(** The keyword arguments of [pw.modules.MLP]. *)
Record MLPConfig : Type := {
  input_size : nat;
  num_hidden_layers : nat;
  hidden_layer_size : nat;
  hidden_activation : Activation;
  hidden_dp : Q;
  hidden_layer_post_activation_bn : bool;
  output_size : nat;
  output_activation : option Activation
}.

(** The library's MLP module: its constructor and its call. *)
Variable MLP : Type.
Variable pw_modules_MLP : MLPConfig -> MLP.
Variable MLP_call : MLP -> Tensor -> result Tensor.

Record Model : Type := {
  mlp : MLP
}.

Definition mlp_config : MLPConfig :=
  {| input_size := 2;
     num_hidden_layers := 3;
     hidden_layer_size := 128;
     hidden_activation := ReLU;
     hidden_dp := 0;
     hidden_layer_post_activation_bn := true;
     output_size := 1;
     output_activation := None |}.

Definition __init__ : Model :=
  {| mlp := pw_modules_MLP mlp_config |}.

(** [forward(x)]: [self.mlp(x).squeeze()] *)
Definition forward (x : Tensor) : M Model Tensor :=
  do self <- get;
  do y <- lift (MLP_call (mlp self) x);
  ret (squeeze y).

End Layers.

Arguments shape {F} _.
Arguments data {F} _.
Arguments well_shaped {F} t.
Arguments squeeze {F} t.
Arguments mlp {MLP} _.
Arguments __init__ {MLP} pw_modules_MLP.
Arguments forward {F MLP} MLP_call x.

(** Modelled from the spec: [pw.modules.MLP] belongs to the wrapper
    library and is not among the notebooks.  Its contract, a stack of
    linear layers from [input_size] features to [output_size] outputs: a
    batch of [n] rows of [input_size] features is mapped to [n] rows of
    [output_size] values. *)
Definition mlp_contract {F MLP} (pw_modules_MLP : MLPConfig -> MLP)
    (MLP_call : MLP -> Tensor F -> result (Tensor F)) : Prop :=
  forall (cfg : MLPConfig) (x : Tensor F) (n : nat),
    well_shaped x ->
    shape x = [n; input_size cfg] ->
    exists y,
      MLP_call (pw_modules_MLP cfg) x = Ok y /\
      well_shaped y /\
      shape y = [n; output_size cfg].

End Net.

(** ** The two spiral notebook: the index lists of the samplers *)

Module Script.

(** [list(range(start, stop))] *)
Definition range (start stop : nat) : list Z :=
  map Z.of_nat (seq start (stop - start)).

(** The lists handed to the samplers of the three data loaders. *)
Definition train_indices : list Z := range 0 800.
Definition val_indices : list Z := range 800 900.
Definition test_indices : list Z := range 900 1000.

(** [ex_ds_pos = 900 + ex_pred_pos] *)
Definition ex_ds_pos (ex_pred_pos : nat) : Z := 900 + Z.of_nat ex_pred_pos.

End Script.

(** ** Concrete worlds the statements are exercised on *)

Module Fixture.

(** A fragment of Python's [float()]: an optional minus sign, digits, and
    at most one decimal point among them. *)
Definition digit (c : ascii) : option Z :=
  let n := nat_of_ascii c in
  if ((48 <=? n) && (n <=? 57))%nat then Some (Z.of_nat (n - 48)) else None.

Fixpoint decimal (s : string) (dot : bool) (num : Z) (den : positive)
    (seen : bool) : option Q :=
  match s with
  | EmptyString => if seen then Some (num # den) else None
  | String c s' =>
      if Ascii.eqb c "." then
        if dot then None else decimal s' true num den seen
      else
        match digit c with
        | Some d =>
            decimal s' dot (10 * num + d)
              (if dot then (10 * den)%positive else den) true
        | None => None
        end
  end.

Definition py_float (s : string) : result Q :=
  let unsigned t := decimal t false 0 1 false in
  match s with
  | String "-" t =>
      match unsigned t with
      | Some q => Ok (- q)%Q
      | None => Raise (FloatValueError s)
      end
  | _ =>
      match unsigned s with
      | Some q => Ok q
      | None => Raise (FloatValueError s)
      end
  end.

(** The values of the fixture are dyadic, so the conversion to [float32]
    leaves them as they are. *)
Definition float32 (q : Q) : Q := q.

(** A tab-separated text: fields joined by tabs, every row ended by a
    newline. *)
Definition line (fields : list string) : string :=
  match fields with
  | [] => EmptyString
  | f :: fs => fold_left (fun acc g => acc ++ String Dataset.tab g) fs f
  end.

Definition row (fields : list string) : string :=
  line fields ++ String Dataset.newline EmptyString.

Definition tsv (rows : list (list string)) : string :=
  fold_right (fun r acc => row r ++ acc) EmptyString rows.

(** A header and two records. *)
Definition text : string :=
  tsv [["x"; "y"; "label"]; ["1"; "2.5"; "0"]; ["-0.5"; "0.25"; "1"]].

Definition requests_get (u : string) : result string := Ok text.

(** The object [TwoSpiralDataset()] is in that world. *)
Definition dataset : Dataset.TwoSpiralDataset Q :=
  {| Dataset.pos := [(1, 2.5); (-0.5, 0.25)]%Q;
     Dataset.target := [0; 1]%Q |}.

(** A header and a record with a field too many. *)
Definition requests_get_wide (u : string) : result string :=
  Ok (tsv [["x"; "y"; "label"]; ["1"; "2"; "0"; "7"]]).

(** No connection. *)
Definition requests_get_down (u : string) : result string :=
  Raise (RequestException "connection refused").

(** Three recorded pairs, in two batches and regrouped. *)
Definition batches : list (list (Q * Q)) :=
  [[(1, 3)]; [(2, 1); (0.5, 0.5)]]%Q.

Definition regrouped : list (list (Q * Q)) :=
  [[(1, 3); (2, 1)]; []; [(0.5, 0.5)]]%Q.

(** The call that hands a batch of pairs to [step], the model's output
    being a dict with the outputs under ["out"]. *)
Definition call (ps : list (Q * Q))
    : Evaluator.ModelOutput * gmap string Evaluator.Tensor :=
  (Evaluator.OutDict
     (<["out" := Evaluator.T1 (map fst ps)]> (<["aux" := Evaluator.T0 7]> ∅)),
   <["target" := Evaluator.T1 (map snd ps)]>
     (<["input" := Evaluator.T1 []]> ∅)).

(** The same header and records without the final newline. *)
Definition requests_get_unterminated (u : string) : result string :=
  Ok (Dataset.join Dataset.newline
        [line ["x"; "y"; "label"]; line ["1"; "2.5"; "0"];
         line ["-0.5"; "0.25"; "1"]]).

(** An error page in place of the file. *)
Definition requests_get_error_page (u : string) : result string :=
  Ok "404: Not Found".

(** A header and a record whose second and third fields are no numbers. *)
Definition requests_get_words (u : string) : result string :=
  Ok (tsv [["x"; "y"; "label"]; ["1"; "north"; "east"]]).

(** A call whose output is a 0-d tensor, and a call whose batch has no
    target. *)
Definition scalar_call : Evaluator.ModelOutput * gmap string Evaluator.Tensor :=
  (Evaluator.OutTensor (Evaluator.T0 5),
   <["target" := Evaluator.T1 [1%Q]]> ∅).

Definition untargeted_call
    : Evaluator.ModelOutput * gmap string Evaluator.Tensor :=
  (Evaluator.OutDict (<["out" := Evaluator.T1 [4; 6]%Q]> ∅),
   <["input" := Evaluator.T1 []]> ∅).

(** numpy's int64 arithmetic on Python ints: every result wraps around
    at 2^63.  Lists that hold lists are refused. *)
Definition wrap64 (z : Z) : Z :=
  ((z + 9223372036854775808) mod 18446744073709551616
   - 9223372036854775808)%Z.

Definition int64 : NumpyEvaluator.Numpy Z :=
  {| NumpyEvaluator.DType := unit;
     NumpyEvaluator.Elem := Z;
     NumpyEvaluator.dtype_of := fun _ => tt;
     NumpyEvaluator.cast := fun _ z => wrap64 z;
     NumpyEvaluator.subtract := fun a b => wrap64 (a - b);
     NumpyEvaluator.absolute := fun a => wrap64 (Z.abs a);
     NumpyEvaluator.np_sum :=
       fun l => fold_left (fun acc x => wrap64 (acc + x)) l 0%Z;
     NumpyEvaluator.nd_score := fun _ _ => Raise (BroadcastError 0 0) |}.

(** Three recorded pairs of ints, in two batches. *)
Definition int_batches : list (list (Z * Z)) :=
  [[(1, 3)]; [(2, 1); (-9223372036854775808, 0)]]%Z.

Definition int_call (ps : list (Z * Z))
    : NumpyEvaluator.ModelOutput Z * gmap string (NumpyEvaluator.Tensor Z) :=
  (NumpyEvaluator.OutDict
     (<["out" := NumpyEvaluator.T1 (map fst ps)]>
        (<["aux" := NumpyEvaluator.T0 7%Z]> ∅)),
   <["target" := NumpyEvaluator.T1 (map snd ps)]>
     (<["input" := NumpyEvaluator.T1 []]> ∅)).

(** A call whose output is a matrix of two rows and whose batch has a
    0-d tensor for target. *)
Definition int_matrix_call
    : NumpyEvaluator.ModelOutput Z * gmap string (NumpyEvaluator.Tensor Z) :=
  (NumpyEvaluator.OutTensor
     (NumpyEvaluator.TN [NumpyEvaluator.T1 [4; 6]%Z;
                         NumpyEvaluator.T1 [5; 8]%Z]),
   <["target" := NumpyEvaluator.T0 1%Z]> ∅).

(** A call whose batch has no target. *)
Definition int_untargeted_call
    : NumpyEvaluator.ModelOutput Z * gmap string (NumpyEvaluator.Tensor Z) :=
  (NumpyEvaluator.OutDict (<["out" := NumpyEvaluator.T1 [4; 6]%Z]> ∅),
   <["input" := NumpyEvaluator.T1 []]> ∅).

(** An MLP that answers zeros of the configured width, one row per input
    row, and refuses anything that is not a matrix of rows of its input
    size. *)
Definition mlp_call (cfg : Net.MLPConfig) (x : Net.Tensor Q)
    : result (Net.Tensor Q) :=
  match Net.shape x with
  | [n; k] =>
      if decide (k = Net.input_size cfg) then
        Ok {| Net.shape := [n; Net.output_size cfg];
              Net.data := replicate (n * Net.output_size cfg) 0%Q |}
      else Raise (BroadcastError k (Net.input_size cfg))
  | _ => Raise (BroadcastError (length (Net.shape x)) 2)
  end.

(** Three input examples. *)
Definition batch3 : Net.Tensor Q :=
  {| Net.shape := [3; 2]; Net.data := [1; 2; 3; 4; 5; 6]%Q |}.

(** One input example. *)
Definition batch1 : Net.Tensor Q :=
  {| Net.shape := [1; 2]; Net.data := [1; 2]%Q |}.

End Fixture.

(** * Properties *)

(** ** The method monad *)

Module PyFacts.

Lemma exec_bind {S A B} (m : M S A) (k : A -> M S B) (s s' : S) (a : A) :
  m s = (Ok a, s') -> bind m k s = k a s'.
Proof. intros H. unfold bind. now rewrite H. Qed.

Lemma raise_bind {S A B} (m : M S A) (k : A -> M S B) (s s' : S) (e : exn) :
  m s = (Raise e, s') -> bind m k s = (Raise e, s').
Proof. intros H. unfold bind. now rewrite H. Qed.

Lemma read_only_get {S} : read_only (@get S).
Proof. now intros s. Qed.

Lemma read_only_ret {S A} (a : A) : read_only (@ret S A a).
Proof. now intros s. Qed.

Lemma read_only_lift {S A} (r : result A) : read_only (@lift S A r).
Proof. now intros s. Qed.

Lemma read_only_bind {S A B} (m : M S A) (k : A -> M S B) :
  read_only m -> (forall a, read_only (k a)) -> read_only (bind m k).
Proof.
  intros Hm Hk s. unfold exec, bind.
  specialize (Hm s). unfold exec in Hm.
  destruct (m s) as [[a|e] s']; simpl in *; subst s'.
  - apply Hk.
  - reflexivity.
Qed.

End PyFacts.

(** ** The evaluator *)

Module EvaluatorFacts.

Import Evaluator PyFacts.

Lemma step_carries key target_key call xs ys self :
  _model_output_key self = key ->
  _batch_target_key self = target_key ->
  carries key target_key call xs ys ->
  step (fst call) (snd call) self = (Ok tt, grown xs ys self).
Proof.
  intros Hk Ht [Hout Htgt].
  unfold step, bind, get, lift, ret. rewrite Hk.
  destruct key as [k|].
  - destruct Hout as (d & -> & Hd). simpl. rewrite Hd. simpl.
    unfold modify. simpl. unfold batch_getitem. rewrite Ht, Htgt. reflexivity.
  - rewrite Hout. simpl.
    unfold modify. simpl. unfold batch_getitem. rewrite Ht, Htgt. reflexivity.
Qed.

Lemma steps_cons call calls self :
  steps (call :: calls) self
  = steps calls (exec (step (fst call) (snd call)) self).
Proof. reflexivity. Qed.

(** [step] never touches the two keys, whether it returns or raises. *)
Lemma step_keys output batch self :
  _model_output_key (exec (step output batch) self) = _model_output_key self /\
  _batch_target_key (exec (step output batch) self) = _batch_target_key self.
Proof.
  unfold exec, step, bind, get, lift, ret, extend_outputs, extend_targets.
  destruct (_model_output_key self) as [k|] eqn:Hkey; simpl.
  - destruct (output_getitem output k) as [o|e]; simpl; [|easy].
    destruct (output_tolist o) as [[x|xs]|e]; simpl; try easy.
    destruct (batch_getitem batch (_batch_target_key self)) as [[x|ys]|e];
      simpl; easy.
  - destruct (output_tolist output) as [[x|xs]|e]; simpl; try easy.
    destruct (batch_getitem batch (_batch_target_key self)) as [[x|ys]|e];
      simpl; easy.
Qed.

Lemma steps_keys calls self :
  _model_output_key (steps calls self) = _model_output_key self /\
  _batch_target_key (steps calls self) = _batch_target_key self.
Proof.
  revert self. induction calls as [|c calls IH]; intros self; [easy|].
  rewrite steps_cons.
  destruct (IH (exec (step (fst c) (snd c)) self)) as [-> ->].
  apply step_keys.
Qed.

(** A run of calls that each carry their lists leaves the lists of the
    calls appended, in call order. *)
Lemma steps_carries key target_key calls (ios : list (list Q * list Q)) self :
  _model_output_key self = key ->
  _batch_target_key self = target_key ->
  Forall2 (fun c io => carries key target_key c (fst io) (snd io)) calls ios ->
  steps calls self
  = grown (concat (map fst ios)) (concat (map snd ios)) self.
Proof.
  intros Hk Ht H. revert self Hk Ht.
  induction H as [|c io calls ios Hc _ IH]; intros self Hk Ht.
  - simpl. unfold grown, set_targets, set_outputs. simpl.
    rewrite !app_nil_r. now destruct self.
  - rewrite steps_cons. unfold exec.
    rewrite (step_carries key target_key c (fst io) (snd io) self Hk Ht Hc).
    simpl. rewrite IH by (simpl; assumption).
    unfold grown, set_targets, set_outputs. simpl.
    now rewrite !app_assoc.
Qed.

Lemma steps_records key target_key calls (batches : list (list (Q * Q))) self :
  _model_output_key self = key ->
  _batch_target_key self = target_key ->
  Forall2 (records key target_key) calls batches ->
  steps calls self
  = grown (map fst (concat batches)) (map snd (concat batches)) self.
Proof.
  intros Hk Ht H.
  rewrite (steps_carries key target_key calls
             (map (fun ps => (map fst ps, map snd ps)) batches) self Hk Ht).
  - f_equal.
    + clear. induction batches as [|b bs IH]; [easy|].
      simpl. now rewrite map_app, IH.
    + clear. induction batches as [|b bs IH]; [easy|].
      simpl. now rewrite map_app, IH.
  - clear Hk Ht. induction H; constructor; auto.
Qed.

Lemma init_fields key target_key :
  __init__ key target_key
  = {| _model_output_key := key; _batch_target_key := target_key;
       _outputs := []; _targets := [] |}.
Proof. reflexivity. Qed.

Lemma fold_left_Qplus (l : list Q) (a : Q) :
  (fold_left Qplus l a == a + fold_left Qplus l 0)%Q.
Proof.
  revert a. induction l as [|x l IH]; intros a; simpl.
  - now rewrite Qplus_0_r.
  - rewrite (IH (a + x)%Q), (IH (0 + x)%Q). rewrite Qplus_0_l.
    now rewrite Qplus_assoc.
Qed.

End EvaluatorFacts.

Module EvaluatorClaims.

Import Evaluator PyFacts EvaluatorFacts.

(** C8: the result of [calculate] depends only on the pairs recorded, in
    call order, not on how they were grouped into batches: two runs of
    [step] calls whose batches concatenate to the same sequence of pairs
    give the same result (one of the two may be a single batch). *)
Theorem calculate_independent_of_batching
    (key : option string) (target_key : string)
    (calls calls' : list (ModelOutput * gmap string Tensor))
    (batches batches' : list (list (Q * Q))) :
  Forall2 (records key target_key) calls batches ->
  Forall2 (records key target_key) calls' batches' ->
  concat batches = concat batches' ->
  outcome calculate (steps calls (__init__ key target_key))
  = outcome calculate (steps calls' (__init__ key target_key)).
Proof.
  intros H H' Heq.
  rewrite (steps_records key target_key calls batches
             (__init__ key target_key) eq_refl eq_refl H).
  rewrite (steps_records key target_key calls' batches'
             (__init__ key target_key) eq_refl eq_refl H').
  now rewrite Heq.
Qed.

Lemma calculate_independent_of_batching_witness :
  outcome calculate
    (steps (map Fixture.call Fixture.batches) (__init__ (Some "out") "target"))
  = outcome calculate
      (steps (map Fixture.call Fixture.regrouped) (__init__ (Some "out") "target")).
Proof.
  apply (calculate_independent_of_batching (Some "out") "target"
           (map Fixture.call Fixture.batches)
           (map Fixture.call Fixture.regrouped)
           Fixture.batches Fixture.regrouped).
  - repeat constructor; eexists; (split; [reflexivity | vm_compute; reflexivity]).
  - repeat constructor; eexists; (split; [reflexivity | vm_compute; reflexivity]).
  - reflexivity.
Defined.

(** C9: [reset] returns the evaluator to the state [__init__] left it in,
    however many [step] calls came before, returning or raising; after
    [reset] both lists are empty, a second [reset] changes nothing, and
    the two keys are what they were. *)
Theorem reset_restores_initial_state
    (key : option string) (target_key : string)
    (calls : list (ModelOutput * gmap string Tensor))
    (self : ManhattanDistanceEvaluator) :
  exec reset (steps calls (__init__ key target_key)) = __init__ key target_key /\
  outcome reset self = Ok tt /\
  _outputs (exec reset self) = [] /\
  _targets (exec reset self) = [] /\
  exec reset (exec reset self) = exec reset self /\
  _model_output_key (exec reset self) = _model_output_key self /\
  _batch_target_key (exec reset self) = _batch_target_key self.
Proof.
  split; [|now repeat split].
  destruct (steps_keys calls (__init__ key target_key)) as [Hk Ht].
  unfold exec, reset, bind, modify. simpl.
  unfold set_targets, set_outputs. simpl.
  now rewrite Hk, Ht.
Qed.

(** C10: on a fresh evaluator, and on one just reset, [calculate] does not
    raise: it returns a result with score 0, label 'manh-dist', format
    '%f' and [is_max_better] false; and whenever [calculate] returns, in
    any state, the result has that label and [is_max_better] false. *)
Theorem calculate_on_empty_evaluator
    (key : option string) (target_key : string)
    (self : ManhattanDistanceEvaluator) :
  outcome calculate (__init__ key target_key)
  = Ok {| score := 0; label := "manh-dist"; score_format := "%f";
          is_max_better := false |} /\
  outcome calculate (exec reset self)
  = Ok {| score := 0; label := "manh-dist"; score_format := "%f";
          is_max_better := false |} /\
  match outcome calculate self with
  | Ok r => label r = "manh-dist" /\ is_max_better r = false
  | Raise _ => True
  end.
Proof.
  split; [reflexivity|]. split; [reflexivity|].
  unfold outcome, calculate, bind, get, lift, ret. simpl.
  destruct (np_subtract (_outputs self) (_targets self)); simpl; auto.
Qed.

End EvaluatorClaims.

(** ** The dataset *)

Module DatasetFacts.

Import Dataset PyFacts.

Lemma slice_inner_length {A} (l : list A) :
  length (slice l 1 (-1)) = length l - 2.
Proof.
  unfold slice, slice_bound. simpl.
  rewrite length_take, length_drop. lia.
Qed.

Lemma np_getitem_nat {A} (a : list A) (i : nat) (x : A) :
  a !! i = Some x -> np_getitem a (Z.of_nat i) = Ok x.
Proof.
  intros H. pose proof (lookup_lt_Some _ _ _ H) as Hlt.
  unfold np_getitem.
  destruct (Z.ltb_spec (Z.of_nat i) 0) as [Hneg|_]; [lia|].
  destruct (Z.leb_spec 0 (Z.of_nat i)) as [_|Hneg]; [|lia].
  destruct (Z.ltb_spec (Z.of_nat i) (Z.of_nat (length a))) as [_|Hge]; [|lia].
  simpl. now rewrite Nat2Z.id, H.
Qed.

(** An index in bounds, counted from either end, reads the element at
    its position from the start. *)
Lemma np_getitem_in_bounds {A} (a : list A) (i : Z) :
  (- Z.of_nat (length a) <= i < Z.of_nat (length a))%Z ->
  exists x,
    np_getitem a i = Ok x /\
    a !! Z.to_nat (i mod Z.of_nat (length a)) = Some x.
Proof.
  intros Hi. unfold np_getitem.
  set (n := Z.of_nat (length a)) in *.
  set (j := if (i <? 0)%Z then (i + n)%Z else i).
  assert (Hj : (0 <= j < n)%Z).
  { subst j. destruct (Z.ltb_spec i 0); lia. }
  assert (Hmod : (i mod n = j)%Z).
  { subst j. destruct (Z.ltb_spec i 0).
    - rewrite <- (Z.mod_small (i + n) n) by lia.
      rewrite <- (Z_mod_plus_full i 1 n). f_equal. lia.
    - apply Z.mod_small. lia. }
  destruct (Z.leb_spec 0 j) as [_|?]; [|lia].
  destruct (Z.ltb_spec j n) as [_|?]; [|lia].
  simpl. rewrite Hmod.
  destruct (lookup_lt_is_Some_2 a (Z.to_nat j)) as [x Hx]; [lia|].
  exists x. now rewrite Hx.
Qed.

Lemma np_getitem_out_of_bounds {A} (a : list A) (i : Z) :
  ~ (- Z.of_nat (length a) <= i < Z.of_nat (length a))%Z ->
  np_getitem a i = Raise (index_exn i).
Proof.
  intros Hi. unfold np_getitem.
  set (n := Z.of_nat (length a)) in *.
  set (j := if (i <? 0)%Z then (i + n)%Z else i).
  destruct ((0 <=? j)%Z && (j <? n)%Z)%bool eqn:Hin; [|reflexivity].
  exfalso. apply andb_true_iff in Hin as [H0 Hn].
  apply Z.leb_le in H0. apply Z.ltb_lt in Hn.
  subst j. destruct (Z.ltb_spec i 0); lia.
Qed.

Lemma slice_inner_take_drop {A} (l : list A) :
  slice l 1 (-1) = take (length l - 1 - Nat.min (length l) 1)
                     (drop (Nat.min (length l) 1) l).
Proof.
  unfold slice.
  assert (Hlo : slice_bound (length l) 1 = Nat.min (length l) 1)
    by reflexivity.
  assert (Hhi : slice_bound (length l) (-1) = length l - 1).
  { unfold slice_bound. simpl. lia. }
  now rewrite Hlo, Hhi.
Qed.

Lemma slice_inner {A} (first last : A) (inner : list A) :
  slice (first :: inner ++ [last]) 1 (-1) = inner.
Proof.
  rewrite slice_inner_take_drop. simpl length. rewrite length_app. simpl length.
  replace (Nat.min (S (length inner + 1)) 1) with 1 by lia.
  replace (S (length inner + 1) - 1 - 1) with (length inner) by lia.
  simpl. rewrite drop_0. apply take_app_length.
Qed.

Lemma slice_inner_short {A} (l : list A) :
  length l < 2 -> slice l 1 (-1) = [].
Proof.
  intros H. apply length_zero_iff_nil. rewrite slice_inner_length. lia.
Qed.

(** The pieces of a text: at least one, and the loop runs over all of
    them but the first and the last. *)
Lemma split_not_nil (sep : ascii) (s : string) : split sep s <> [].
Proof.
  destruct s as [|c s]; simpl; [discriminate|].
  destruct (Ascii.eqb c sep); [discriminate|].
  destruct (split sep s); discriminate.
Qed.

Lemma split_single (sep : ascii) (s w : string) :
  split sep s = [w] -> w = s.
Proof.
  revert w. induction s as [|c s IH]; intros w; simpl.
  - now intros [= <-].
  - destruct (Ascii.eqb c sep).
    + intros [= _ H]. now apply split_not_nil in H.
    + destruct (split sep s) as [|w' ws] eqn:Hs.
      * now apply split_not_nil in Hs.
      * intros [= <- ->]. f_equal. now apply IH.
Qed.

Lemma parsed_lines_inner (text : string) :
  (split newline text = [text] /\ parsed_lines text = []) \/
  exists first last,
    split newline text = first :: (parsed_lines text ++ [last])%list.
Proof.
  unfold parsed_lines.
  destruct (split newline text) as [|first rest] eqn:Hsplit.
  - now apply split_not_nil in Hsplit.
  - destruct rest as [|x rest _] using rev_ind.
    + left. split; [|reflexivity].
      now rewrite (split_single _ _ _ Hsplit).
    + right. exists first, x. now rewrite slice_inner.
Qed.

Section World.

Context {F : Type}.
Variable py_float : string -> result F.
Variable float32 : F -> F.
Variable requests_get : string -> result string.

Lemma parse_line_ok line r s :
  parses py_float line r ->
  parse_line py_float line s = (Ok tt, appended s [r]).
Proof.
  destruct r as [[x y] t].
  intros (a & b & c & Hsplit & Ha & Hb & Hc). simpl in *.
  unfold parse_line, bind, lift. rewrite Hsplit. simpl.
  rewrite Ha, Hb. simpl. rewrite Hc. reflexivity.
Qed.

Lemma parse_line_inv line s s' u :
  parse_line py_float line s = (Ok u, s') ->
  exists r, parses py_float line r /\ s' = appended s [r].
Proof.
  unfold parse_line, bind, lift, unpack3.
  destruct (split tab line) as [|a [|b [|c [|d fields]]]] eqn:Hsplit;
    simpl; try discriminate.
  destruct (py_float a) as [x|e] eqn:Ha; [|discriminate].
  destruct (py_float b) as [y|e] eqn:Hb; [|discriminate]. simpl.
  destruct (py_float c) as [t|e] eqn:Hc; [|discriminate]. simpl.
  intros [= <- <-]. exists (x, y, t). split; [|reflexivity].
  exists a, b, c. auto.
Qed.

Lemma parse_line_raise line s s' e :
  parse_line py_float line s = (Raise e, s') ->
  line_raises py_float line e.
Proof.
  unfold parse_line, bind, lift, unpack3, line_raises.
  destruct (split tab line) as [|a [|b [|c [|d fields]]]] eqn:Hsplit;
    simpl; try (intros [= <- _]; left; split; [lia | reflexivity]).
  intros H. right.
  destruct (py_float a) as [x|e'] eqn:Ha.
  2:{ injection H as <- _. exists a. split; [set_solver | assumption]. }
  destruct (py_float b) as [y|e'] eqn:Hb.
  2:{ injection H as <- _. exists b. split; [set_solver | assumption]. }
  simpl in H.
  destruct (py_float c) as [t|e'] eqn:Hc; [discriminate|].
  injection H as <- _. exists c. split; [set_solver | assumption].
Qed.

Lemma appended_nil (s : Lists F) : appended s [] = s.
Proof. destruct s. unfold appended. simpl. now rewrite !app_nil_r. Qed.

Lemma appended_cons (s : Lists F) r rs :
  appended (appended s [r]) rs = appended s (r :: rs).
Proof. unfold appended. simpl. now rewrite <- !app_assoc. Qed.

(** The loop on well-formed lines: every line appends its record. *)
Lemma for_lines_ok lines rs s :
  Forall2 (parses py_float) lines rs ->
  for_lines py_float lines s = (Ok tt, appended s rs).
Proof.
  intros H. revert s.
  induction H as [|line r lines rs Hr _ IH]; intros s; simpl.
  - unfold ret. now rewrite appended_nil.
  - rewrite (exec_bind _ _ _ _ _ (parse_line_ok line r s Hr)).
    now rewrite IH, appended_cons.
Qed.

(** A loop that ran to its end met well-formed lines only. *)
Lemma for_lines_inv lines s s' u :
  for_lines py_float lines s = (Ok u, s') ->
  exists rs, Forall2 (parses py_float) lines rs /\ s' = appended s rs.
Proof.
  revert s. induction lines as [|line lines IH]; intros s; simpl.
  - intros [= _ <-]. exists []. split; [constructor|].
    now rewrite appended_nil.
  - unfold bind at 1.
    destruct (parse_line py_float line s) as [[[]|e] s1] eqn:Hline;
      [|discriminate].
    intros Hrest.
    destruct (parse_line_inv _ _ _ _ Hline) as (r & Hr & ->).
    destruct (IH _ Hrest) as (rs & Hrs & ->).
    exists (r :: rs). split; [now constructor|]. apply appended_cons.
Qed.

(** A loop that raised did so on the first line that is not well
    formed, with the exception that line raises. *)
Lemma for_lines_raise lines s s' e :
  for_lines py_float lines s = (Raise e, s') ->
  exists before line after,
    lines = (before ++ line :: after)%list /\
    Forall (line_ok py_float) before /\
    line_raises py_float line e.
Proof.
  revert s. induction lines as [|line lines IH]; intros s; simpl.
  - discriminate.
  - unfold bind at 1.
    destruct (parse_line py_float line s) as [[[]|e'] s1] eqn:Hline.
    + intros Hrest.
      destruct (parse_line_inv _ _ _ _ Hline) as (r & Hr & _).
      destruct (IH _ Hrest) as (before & l & after & -> & Hb & Hl).
      exists (line :: before), l, after.
      split; [reflexivity|]. split; [|assumption].
      constructor; [now exists r | assumption].
    + intros [= <- _]. exists [], line, lines.
      split; [reflexivity|]. split; [constructor|].
      eapply parse_line_raise, Hline.
Qed.

(** A line cannot both parse and raise. *)
Lemma line_ok_not_raises line e :
  line_ok py_float line -> ~ line_raises py_float line e.
Proof.
  intros ([[x y] t] & a & b & c & Hsplit & Ha & Hb & Hc) Hraise.
  simpl in *. unfold line_raises in Hraise. rewrite Hsplit in Hraise.
  destruct Hraise as [[Hlen _]|(f & Hf & Hfe)]; [now apply Hlen|].
  rewrite !elem_of_cons in Hf.
  destruct Hf as [->|[->|[->|Hf]]]; try congruence.
  now apply elem_of_nil in Hf.
Qed.

Lemma Forall2_parses_ok lines :
  Forall (line_ok py_float) lines <->
  exists rs, Forall2 (parses py_float) lines rs.
Proof.
  split.
  - induction 1 as [|line lines [r Hr] _ [rs IH]].
    + exists []. constructor.
    + exists (r :: rs). now constructor.
  - intros [rs H]. induction H as [|line r lines rs Hr _ IH]; [constructor|].
    constructor; [now exists r | assumption].
Qed.

(** What [__init__] returns, by what the fetch returned and what the
    loop met. *)
Lemma init_fetch_raises e :
  requests_get url = Raise e ->
  __init__ py_float float32 requests_get = Raise e.
Proof. intros H. unfold __init__. now rewrite H. Qed.

Lemma init_ok text rs :
  requests_get url = Ok text ->
  Forall2 (parses py_float) (parsed_lines text) rs ->
  __init__ py_float float32 requests_get = Ok (stored float32 rs).
Proof.
  intros Hget Hrs. unfold __init__. rewrite Hget.
  rewrite (for_lines_ok _ _ _ Hrs). unfold appended, stored. simpl.
  f_equal. f_equal.
  - rewrite map_map. apply map_ext. now intros [[x y] t].
  - now rewrite map_map.
Qed.

Lemma init_ok_inv text ds :
  requests_get url = Ok text ->
  __init__ py_float float32 requests_get = Ok ds ->
  exists rs,
    Forall2 (parses py_float) (parsed_lines text) rs /\
    ds = stored float32 rs.
Proof.
  intros Hget. unfold __init__. rewrite Hget.
  destruct (for_lines _ _ _) as [[[]|e] s'] eqn:Hloop; [|discriminate].
  destruct (for_lines_inv _ _ _ _ Hloop) as (rs & Hrs & _).
  intros Hds. exists rs. split; [assumption|].
  pose proof (init_ok text rs Hget Hrs) as Hinit.
  unfold __init__ in Hinit. rewrite Hget, Hloop in Hinit.
  congruence.
Qed.

Lemma init_raise_inv text e :
  requests_get url = Ok text ->
  __init__ py_float float32 requests_get = Raise e ->
  exists before line after,
    parsed_lines text = (before ++ line :: after)%list /\
    Forall (line_ok py_float) before /\
    line_raises py_float line e.
Proof.
  intros Hget. unfold __init__. rewrite Hget.
  destruct (for_lines _ _ _) as [[[]|e'] s'] eqn:Hloop; [discriminate|].
  intros [= <-]. eapply for_lines_raise, Hloop.
Qed.

(** The object without a fetched text: [__init__] returned, so the
    fetch did. *)
Lemma init_ok_fetched ds :
  __init__ py_float float32 requests_get = Ok ds ->
  exists text, requests_get url = Ok text.
Proof.
  unfold __init__. destruct (requests_get url) as [text|e]; [|discriminate].
  intros _. now exists text.
Qed.

Lemma stored_lengths (rs : list (F * F * F)) :
  length (pos (stored float32 rs)) = length rs /\
  length (target (stored float32 rs)) = length rs.
Proof. unfold stored. simpl. now rewrite !length_map. Qed.

Lemma stored_lookup (rs : list (F * F * F)) (i : nat) x y t :
  rs !! i = Some (x, y, t) ->
  pos (stored float32 rs) !! i = Some (float32 x, float32 y) /\
  target (stored float32 rs) !! i = Some (float32 t).
Proof.
  intros H. unfold stored. simpl. split.
  - change (map ?f rs) with (f <$> rs).
    now rewrite list_lookup_fmap, H.
  - change (map ?f rs) with (f <$> rs).
    now rewrite list_lookup_fmap, H.
Qed.

(** [__getitem__] and [__len__] only read the object. *)
Lemma getitem_read_only (i : Z) : read_only (@__getitem__ F i).
Proof.
  unfold __getitem__.
  apply read_only_bind; [apply read_only_get|]. intros self.
  apply read_only_bind; [apply read_only_lift|]. intros p.
  apply read_only_bind; [apply read_only_lift|]. intros t.
  apply read_only_ret.
Qed.

Lemma len_read_only : read_only (@__len__ F).
Proof.
  unfold __len__.
  apply read_only_bind; [apply read_only_get|]. intros self.
  apply read_only_ret.
Qed.

(** On arrays of one length, an index in bounds reads a row and the
    label at the same position. *)
Lemma getitem_in_bounds (ds : TwoSpiralDataset F) (i : Z) :
  length (pos ds) = length (target ds) ->
  (- Z.of_nat (length (pos ds)) <= i < Z.of_nat (length (pos ds)))%Z ->
  exists x y t,
    np_getitem (pos ds) i = Ok (x, y) /\
    np_getitem (target ds) i = Ok t /\
    __getitem__ i ds = (Ok (example x y t), ds).
Proof.
  intros Hlen Hi.
  destruct (np_getitem_in_bounds (pos ds) i Hi) as ([x y] & Hp & _).
  rewrite Hlen in Hi.
  destruct (np_getitem_in_bounds (target ds) i Hi) as (t & Ht & _).
  exists x, y, t. split; [assumption|]. split; [assumption|].
  unfold __getitem__, bind, get, lift, ret. now rewrite Hp, Ht.
Qed.

End World.

End DatasetFacts.

Module DatasetClaims.

Import Dataset PyFacts DatasetFacts.

(** C2, as stated, fails: the text of the fixture has three lines, a
    header and two records, and the constructor stores two records, the
    header being skipped. *)
Lemma one_record_per_line_fails :
  ~ one_record_per_line Fixture.py_float Fixture.float32 Fixture.requests_get.
Proof.
  intros H.
  assert (Hinit : Dataset.__init__ Fixture.py_float Fixture.float32
                    Fixture.requests_get = Ok Fixture.dataset)
    by (vm_compute; reflexivity).
  specialize (H Fixture.text Fixture.dataset eq_refl Hinit).
  vm_compute in H. discriminate H.
Qed.

(** C2, amended: when the fetch returns a text, the constructor splits it
    at the newlines, leaves out the first piece (the header) and the last
    piece (what follows the final newline), and parses every other piece
    into a triple; when they all parse it returns an object holding one
    record per such piece, in whose state [__len__] returns the number of
    records and [__getitem__] returns a record for every index below it. *)
Theorem init_one_record_per_inner_line {F : Type}
    (py_float : string -> result F) (float32 : F -> F)
    (requests_get : string -> result string) (text : string) :
  requests_get url = Ok text ->
  Forall (line_ok py_float) (parsed_lines text) ->
  ((split newline text = [text] /\ parsed_lines text = []) \/
   exists first last,
     split newline text = first :: (parsed_lines text ++ [last])%list) /\
  exists rs,
    Forall2 (parses py_float) (parsed_lines text) rs /\
    Dataset.__init__ py_float float32 requests_get = Ok (stored float32 rs) /\
    length (pos (stored float32 rs)) = length (parsed_lines text) /\
    outcome __len__ (stored float32 rs) = Ok (length (parsed_lines text)) /\
    forall i : nat,
      i < length (parsed_lines text) ->
      exists x y t,
        outcome (__getitem__ (Z.of_nat i)) (stored float32 rs)
        = Ok (example x y t).
Proof.
  intros Hget Hlines. split; [apply parsed_lines_inner|].
  apply Forall2_parses_ok in Hlines as [rs Hrs].
  pose proof (Forall2_length _ _ _ Hrs) as Hlen.
  destruct (stored_lengths float32 rs) as [Hpos Htgt].
  exists rs. split; [assumption|].
  split; [now apply (init_ok _ _ _ text)|].
  split; [congruence|].
  split.
  { unfold outcome, __len__, bind, get, ret. cbn [fst].
    now rewrite Htgt, Hlen. }
  intros i Hi.
  destruct (getitem_in_bounds (stored float32 rs) (Z.of_nat i))
    as (x & y & t & _ & _ & Hitem); [congruence | lia |].
  exists x, y, t. unfold outcome. now rewrite Hitem.
Qed.

Lemma init_one_record_per_inner_line_witness :
  ((split newline Fixture.text = [Fixture.text] /\
    parsed_lines Fixture.text = []) \/
   exists first last,
     split newline Fixture.text
     = first :: (parsed_lines Fixture.text ++ [last])%list) /\
  exists rs,
    Forall2 (parses Fixture.py_float) (parsed_lines Fixture.text) rs /\
    Dataset.__init__ Fixture.py_float Fixture.float32 Fixture.requests_get
    = Ok (stored Fixture.float32 rs) /\
    length (pos (stored Fixture.float32 rs))
    = length (parsed_lines Fixture.text) /\
    outcome __len__ (stored Fixture.float32 rs)
    = Ok (length (parsed_lines Fixture.text)) /\
    forall i : nat,
      i < length (parsed_lines Fixture.text) ->
      exists x y t,
        outcome (__getitem__ (Z.of_nat i)) (stored Fixture.float32 rs)
        = Ok (example x y t).
Proof.
  apply (init_one_record_per_inner_line Fixture.py_float Fixture.float32
           Fixture.requests_get Fixture.text).
  - reflexivity.
  - repeat constructor.
    + exists (1, 2.5, 0)%Q, "1", "2.5", "0". repeat split; reflexivity.
    + exists (-0.5, 0.25, 1)%Q, "-0.5", "0.25", "1". repeat split; reflexivity.
Defined.

(** C3: a failure of the constructor is the underlying exception,
    unchanged: what the fetch raised, or what the first line that is not
    well formed raised, in unpacking its fields or in [float()]; and once
    the text is fetched the constructor returns exactly when every parsed
    line has three tab-separated fields that [float()] accepts. *)
Theorem init_propagates_failures {F : Type}
    (py_float : string -> result F) (float32 : F -> F)
    (requests_get : string -> result string) :
  (forall e,
     requests_get url = Raise e ->
     Dataset.__init__ py_float float32 requests_get = Raise e) /\
  (forall text,
     requests_get url = Ok text ->
     ((exists ds, Dataset.__init__ py_float float32 requests_get = Ok ds) <->
      Forall (line_ok py_float) (parsed_lines text)) /\
     (forall e,
        Dataset.__init__ py_float float32 requests_get = Raise e ->
        exists before line after,
          parsed_lines text = (before ++ line :: after)%list /\
          Forall (line_ok py_float) before /\
          line_raises py_float line e)).
Proof.
  split; [apply init_fetch_raises|].
  intros text Hget. split; [split|].
  - intros [ds Hds].
    destruct (init_ok_inv _ _ _ text ds Hget Hds) as (rs & Hrs & _).
    apply Forall2_parses_ok. now exists rs.
  - intros Hlines. apply Forall2_parses_ok in Hlines as [rs Hrs].
    exists (stored float32 rs). now apply (init_ok _ _ _ text).
  - intros e. now apply init_raise_inv.
Qed.

Lemma init_propagates_failures_witness :
  Dataset.__init__ Fixture.py_float Fixture.float32 Fixture.requests_get_down
  = Raise (RequestException "connection refused") /\
  ((exists ds,
      Dataset.__init__ Fixture.py_float Fixture.float32 Fixture.requests_get
      = Ok ds) <->
   Forall (line_ok Fixture.py_float) (parsed_lines Fixture.text)).
Proof.
  split.
  - apply (proj1 (init_propagates_failures Fixture.py_float Fixture.float32
                    Fixture.requests_get_down)).
    reflexivity.
  - apply (proj2 (init_propagates_failures Fixture.py_float Fixture.float32
                    Fixture.requests_get) Fixture.text).
    reflexivity.
Defined.

(** C4: each coordinate has exactly one label: in the object the
    constructor returns, [pos] and [target] have one length, [__len__]
    returns it, and [__getitem__] at every index in bounds returns one
    coordinate pair with one label; neither method changes the object,
    whether it returns or raises. *)
Theorem pos_and_target_stay_parallel {F : Type}
    (py_float : string -> result F) (float32 : F -> F)
    (requests_get : string -> result string) (ds : TwoSpiralDataset F) :
  Dataset.__init__ py_float float32 requests_get = Ok ds ->
  length (pos ds) = length (target ds) /\
  __len__ ds = (Ok (length (pos ds)), ds) /\
  (forall i : Z,
     (- Z.of_nat (length (pos ds)) <= i < Z.of_nat (length (pos ds)))%Z ->
     exists x y t, __getitem__ i ds = (Ok (example x y t), ds)) /\
  (forall i : Z, read_only (@__getitem__ F i)) /\
  read_only (@__len__ F).
Proof.
  intros Hinit.
  destruct (init_ok_fetched _ _ _ ds Hinit) as [text Hget].
  destruct (init_ok_inv _ _ _ text ds Hget Hinit) as (rs & _ & ->).
  destruct (stored_lengths float32 rs) as [Hpos Htgt].
  assert (Hlen : length (pos (stored float32 rs))
                 = length (target (stored float32 rs))) by congruence.
  split; [assumption|]. split.
  { unfold __len__, bind, get, ret. now rewrite Hlen. }
  split.
  { intros i Hi.
    destruct (getitem_in_bounds (stored float32 rs) i Hlen Hi)
      as (x & y & t & _ & _ & Hitem).
    now exists x, y, t. }
  split; [apply getitem_read_only | apply len_read_only].
Qed.

Lemma pos_and_target_stay_parallel_witness :
  length (pos Fixture.dataset) = length (target Fixture.dataset) /\
  __len__ Fixture.dataset = (Ok (length (pos Fixture.dataset)), Fixture.dataset) /\
  (forall i : Z,
     (- Z.of_nat (length (pos Fixture.dataset)) <= i
      < Z.of_nat (length (pos Fixture.dataset)))%Z ->
     exists x y t,
       __getitem__ i Fixture.dataset = (Ok (example x y t), Fixture.dataset)) /\
  (forall i : Z, read_only (@__getitem__ Q i)) /\
  read_only (@__len__ Q).
Proof.
  apply (pos_and_target_stay_parallel Fixture.py_float Fixture.float32
           Fixture.requests_get Fixture.dataset).
  vm_compute. reflexivity.
Defined.

(** C5: records come in the order of the file: at every index [i] of a
    parsed line, [__getitem__(i)] returns the coordinate pair and the
    label parsed from the [i]-th parsed line, as [float32] values. *)
Theorem getitem_in_file_order {F : Type}
    (py_float : string -> result F) (float32 : F -> F)
    (requests_get : string -> result string)
    (text : string) (ds : TwoSpiralDataset F) (i : nat) (line : string) :
  requests_get url = Ok text ->
  Dataset.__init__ py_float float32 requests_get = Ok ds ->
  parsed_lines text !! i = Some line ->
  exists x y t,
    parses py_float line (x, y, t) /\
    outcome (__getitem__ (Z.of_nat i)) ds
    = Ok (example (float32 x) (float32 y) (float32 t)).
Proof.
  intros Hget Hinit Hline.
  destruct (init_ok_inv _ _ _ text ds Hget Hinit) as (rs & Hrs & ->).
  destruct (Forall2_lookup_l _ _ _ _ _ Hrs Hline) as ([[x y] t] & Hr & Hp).
  exists x, y, t. split; [assumption|].
  destruct (stored_lookup float32 rs i x y t Hr) as [Hpos Htgt].
  unfold outcome, __getitem__, bind, get, lift, ret.
  now rewrite (np_getitem_nat _ _ _ Hpos), (np_getitem_nat _ _ _ Htgt).
Qed.

Lemma getitem_in_file_order_witness :
  exists x y t,
    parses Fixture.py_float (Fixture.line ["-0.5"; "0.25"; "1"]) (x, y, t) /\
    outcome (__getitem__ (Z.of_nat 1)) Fixture.dataset
    = Ok (example (Fixture.float32 x) (Fixture.float32 y) (Fixture.float32 t)).
Proof.
  apply (getitem_in_file_order Fixture.py_float Fixture.float32
           Fixture.requests_get Fixture.text Fixture.dataset 1
           (Fixture.line ["-0.5"; "0.25"; "1"])).
  - reflexivity.
  - vm_compute. reflexivity.
  - vm_compute. reflexivity.
Defined.

(** C6: at every index in bounds of a constructed dataset,
    [__getitem__] returns a dict whose keys are exactly "input" and
    "target", with the coordinate pair at that index under "input" and
    the label at that index under "target". *)
Theorem getitem_keys {F : Type}
    (py_float : string -> result F) (float32 : F -> F)
    (requests_get : string -> result string)
    (ds : TwoSpiralDataset F) (i : Z) :
  Dataset.__init__ py_float float32 requests_get = Ok ds ->
  (- Z.of_nat (length (target ds)) <= i < Z.of_nat (length (target ds)))%Z ->
  exists (item : gmap string (Item F)) x y t,
    outcome (__getitem__ i) ds = Ok item /\
    dom item = ({[ "input"; "target" ]} : gset string) /\
    np_getitem (pos ds) i = Ok (x, y) /\
    np_getitem (target ds) i = Ok t /\
    item !! "input" = Some (Row x y) /\
    item !! "target" = Some (Scalar t).
Proof.
  intros Hinit Hi.
  destruct (init_ok_fetched _ _ _ ds Hinit) as [text Hget].
  destruct (init_ok_inv _ _ _ text ds Hget Hinit) as (rs & _ & ->).
  destruct (stored_lengths float32 rs) as [Hpos Htgt].
  assert (Hlen : length (pos (stored float32 rs))
                 = length (target (stored float32 rs))) by congruence.
  rewrite <- Hlen in Hi.
  destruct (getitem_in_bounds (stored float32 rs) i Hlen Hi)
    as (x & y & t & Hp & Ht & Hitem).
  exists (example x y t), x, y, t.
  split; [unfold outcome; now rewrite Hitem|].
  split.
  { unfold example. rewrite !dom_insert_L, dom_empty_L. set_solver. }
  split; [assumption|]. split; [assumption|].
  unfold example. split.
  - apply lookup_insert_eq.
  - rewrite lookup_insert_ne by discriminate. apply lookup_insert_eq.
Qed.

Lemma getitem_keys_witness :
  exists (item : gmap string (Item Q)) x y t,
    outcome (__getitem__ (-1)) Fixture.dataset = Ok item /\
    dom item = ({[ "input"; "target" ]} : gset string) /\
    np_getitem (pos Fixture.dataset) (-1) = Ok (x, y) /\
    np_getitem (target Fixture.dataset) (-1) = Ok t /\
    item !! "input" = Some (Row x y) /\
    item !! "target" = Some (Scalar t).
Proof.
  apply (getitem_keys Fixture.py_float Fixture.float32 Fixture.requests_get
           Fixture.dataset (-1)).
  - vm_compute. reflexivity.
  - simpl. lia.
Defined.

End DatasetClaims.

(** ** The model *)

Module NetFacts.

Import Net PyFacts.

Lemma squeeze_column {F} (y : Tensor F) (n : nat) :
  shape y = [n; 1] ->
  shape (squeeze y) = if decide (n = 1) then [] else [n].
Proof.
  intros Hy. unfold squeeze. simpl. rewrite Hy.
  rewrite filter_cons. rewrite filter_cons_False by (intros H; now apply H).
  rewrite filter_nil.
  destruct (decide (n = 1)) as [->|Hn].
  - now rewrite decide_False by (intros H; now apply H).
  - now rewrite decide_True by assumption.
Qed.

Lemma squeeze_well_shaped {F} (y : Tensor F) (n : nat) :
  shape y = [n; 1] -> well_shaped y ->
  well_shaped (squeeze y) /\ length (data (squeeze y)) = n.
Proof.
  intros Hy Hwf. unfold well_shaped in *.
  rewrite (squeeze_column y n Hy). rewrite Hy in Hwf.
  simpl in *. split; [|lia].
  destruct (decide (n = 1)) as [->|Hn]; simpl; lia.
Qed.

(** The fixture's MLP honours the contract. *)
Lemma fixture_mlp_contract :
  mlp_contract (fun cfg : MLPConfig => cfg) Fixture.mlp_call.
Proof.
  intros cfg x n Hx Hs. unfold Fixture.mlp_call. rewrite Hs.
  rewrite decide_True by reflexivity.
  eexists. split; [reflexivity|]. split; [|reflexivity].
  unfold well_shaped. simpl. rewrite length_replicate. lia.
Qed.

End NetFacts.

Module NetClaims.

Import Net PyFacts NetFacts.



End NetClaims.

(** * Further properties of the code *)

(** ** The evaluator: how [step] fails, and what the score is *)

Module EvaluatorExtras.

Import Evaluator PyFacts EvaluatorFacts.

Lemma yields_functional key output xs xs' :
  yields key output xs -> yields key output xs' -> xs = xs'.
Proof.
  unfold yields. destruct key as [k|].
  - intros (d & -> & Hd) (d' & [= <-] & Hd'). congruence.
  - congruence.
Qed.

(** Every call of [step] ends in one of three ways. *)
Lemma step_cases output batch (self : ManhattanDistanceEvaluator) :
  (exists xs ys,
     yields (_model_output_key self) output xs /\
     batch !! _batch_target_key self = Some (T1 ys) /\
     step output batch self = (Ok tt, grown xs ys self)) \/
  (exists xs e,
     yields (_model_output_key self) output xs /\
     (forall ys, batch !! _batch_target_key self <> Some (T1 ys)) /\
     e = match batch !! _batch_target_key self with
         | None => KeyError (_batch_target_key self)
         | Some _ => NotIterable
         end /\
     step output batch self
     = (Raise e, set_outputs (_outputs self ++ xs) self)) \/
  ((forall xs, ~ yields (_model_output_key self) output xs) /\
   exists e, step output batch self = (Raise e, self)).
Proof.
  assert (Htarget : forall xs,
    yields (_model_output_key self) output xs ->
    step output batch self
    = match batch !! _batch_target_key self with
      | Some (T1 ys) => (Ok tt, grown xs ys self)
      | Some (T0 _) =>
          (Raise NotIterable, set_outputs (_outputs self ++ xs) self)
      | None =>
          (Raise (KeyError (_batch_target_key self)),
           set_outputs (_outputs self ++ xs) self)
      end).
  { intros xs Hxs. unfold yields in Hxs.
    unfold step, bind, get, lift, ret, batch_getitem. simpl.
    destruct (_model_output_key self) as [k|].
    - destruct Hxs as (d & -> & Hd). simpl. rewrite Hd. simpl.
      destruct (batch !! _batch_target_key self) as [[y|ys]|]; reflexivity.
    - rewrite Hxs. simpl.
      destruct (batch !! _batch_target_key self) as [[y|ys]|]; reflexivity. }
  assert (Houtput :
    (exists xs, yields (_model_output_key self) output xs) \/
    ((forall xs, ~ yields (_model_output_key self) output xs) /\
     exists e, step output batch self = (Raise e, self))).
  { clear Htarget. unfold yields, step, bind, get, lift, ret. simpl.
    destruct (_model_output_key self) as [k|].
    - destruct output as [t|d]; simpl.
      + right. split; [intros xs (d & [=] & _)|]. eexists. reflexivity.
      + destruct (d !! k) as [[x|xs]|] eqn:Hd; simpl.
        * right. split; [intros xs (d' & [= <-] & Hd'); congruence|].
          eexists. reflexivity.
        * left. exists xs, d. now split.
        * right. split; [intros xs (d' & [= <-] & Hd'); congruence|].
          eexists. reflexivity.
    - destruct output as [[x|xs]|d]; simpl.
      + right. split; [intros xs [=]|]. eexists. reflexivity.
      + left. now exists xs.
      + right. split; [intros xs [=]|]. eexists. reflexivity. }
  destruct Houtput as [[xs Hxs]|Hfail]; [|now right; right].
  specialize (Htarget xs Hxs).
  destruct (batch !! _batch_target_key self) as [[y|ys]|] eqn:Hb.
  - right. left. exists xs, NotIterable. now repeat split.
  - left. exists xs, ys. now repeat split.
  - right. left. exists xs, (KeyError (_batch_target_key self)).
    now repeat split.
Qed.

Lemma steps_snoc calls call self :
  steps (calls ++ [call]) self
  = exec (step (fst call) (snd call)) (steps calls self).
Proof. unfold steps. now rewrite fold_left_app. Qed.

Lemma np_subtract_raises (a b : list Q) :
  length a <> length b -> length a <> 1 -> length b <> 1 ->
  np_subtract a b = Raise (BroadcastError (length a) (length b)).
Proof.
  intros Hne Ha Hb. unfold np_subtract. rewrite decide_False by assumption.
  destruct a as [|x [|x' a]]; destruct b as [|y [|y' b]];
    simpl in *; congruence.
Qed.

Lemma np_subtract_returns (a b : list Q) :
  length a = length b \/ length a = 1 \/ length b = 1 ->
  exists d, np_subtract a b = Ok d.
Proof.
  intros H. unfold np_subtract.
  destruct (decide (length a = length b)) as [_|Hne]; [now eexists|].
  destruct H as [H|[H|H]]; [contradiction| |].
  - destruct a as [|x [|x' a]]; try discriminate. now eexists.
  - destruct b as [|y [|y' b]]; try discriminate.
    destruct a as [|x [|x' a]]; now eexists.
Qed.

Lemma np_sum_cons (x : Q) (l : list Q) :
  (np_sum (x :: l) == x + np_sum l)%Q.
Proof.
  unfold np_sum. simpl. rewrite fold_left_Qplus. now rewrite Qplus_0_l.
Qed.

Lemma np_sum_abs_proper (d d' : list Q) :
  Forall2 (fun u v => Qabs u == Qabs v)%Q d d' ->
  (np_sum (np_abs d) == np_sum (np_abs d'))%Q.
Proof.
  unfold np_abs. induction 1 as [|u v d d' Huv _ IH]; [reflexivity|].
  simpl map. rewrite !np_sum_cons. now rewrite Huv, IH.
Qed.

Lemma Forall2_map_same {A B} (P : B -> B -> Prop) (f g : A -> B) (l : list A) :
  (forall x, P (f x) (g x)) -> Forall2 P (map f l) (map g l).
Proof. intros H. induction l; simpl; constructor; auto. Qed.

Lemma zip_with_minus_swap (a b : list Q) :
  Forall2 (fun u v => Qabs u == Qabs v)%Q
    (zip_with Qminus a b) (zip_with Qminus b a).
Proof.
  revert b. induction a as [|x a IH]; intros [|y b]; simpl; constructor.
  - now rewrite Qabs_Qminus.
  - apply IH.
Qed.

(** Exchanging the operands of the subtraction changes neither whether
    it returns nor the absolute values of what it returns. *)
Lemma np_subtract_swap (a b : list Q) :
  match np_subtract a b, np_subtract b a with
  | Ok d, Ok d' => Forall2 (fun u v => Qabs u == Qabs v)%Q d d'
  | Raise _, Raise _ => True
  | _, _ => False
  end.
Proof.
  unfold np_subtract.
  destruct (decide (length a = length b)) as [Heq|Hne].
  - rewrite decide_True by congruence. apply zip_with_minus_swap.
  - rewrite decide_False by congruence.
    destruct a as [|x [|x' a]]; destruct b as [|y [|y' b]];
      simpl in Hne; try congruence; try exact I;
      try (apply Forall2_map_same; intros z; now rewrite Qabs_Qminus).
Qed.

Lemma classic_lengths (a b : list Q) :
  (length a = length b \/ length a = 1 \/ length b = 1) \/
  (length a <> length b /\ length a <> 1 /\ length b <> 1).
Proof. lia. Qed.



Lemma step_target_failure
    (output : ModelOutput) (batch : gmap string Tensor)
    (self : ManhattanDistanceEvaluator) (xs : list Q) :
  yields (_model_output_key self) output xs ->
  (forall ys, batch !! _batch_target_key self <> Some (T1 ys)) ->
  step output batch self
  = (Raise match batch !! _batch_target_key self with
           | None => KeyError (_batch_target_key self)
           | Some _ => NotIterable
           end,
     set_outputs (_outputs self ++ xs) self).
Proof.
  intros Hxs Hno.
  destruct (step_cases output batch self)
    as [(xs' & ys & _ & Hys & _)
       |[(xs' & e & Hxs' & _ & -> & Hstep)|(Hnone & _)]].
  - now apply Hno in Hys.
  - now rewrite (yields_functional _ _ _ _ Hxs Hxs').
  - now apply Hnone in Hxs.
Qed.




(** X8: the score is symmetric in outputs and targets: with the two
    lists exchanged [calculate] returns exactly when it did, with an
    equal score. *)
Theorem score_is_symmetric (self : ManhattanDistanceEvaluator) :
  match outcome calculate self, outcome calculate (swapped self) with
  | Ok r, Ok r' => (score r == score r')%Q
  | Raise _, Raise _ => True
  | _, _ => False
  end.
Proof.
  unfold outcome, calculate, bind, get, lift, ret, swapped. simpl.
  pose proof (np_subtract_swap (_outputs self) (_targets self)) as Hswap.
  destruct (np_subtract (_outputs self) (_targets self)) as [d|e];
    destruct (np_subtract (_targets self) (_outputs self)) as [d'|e'];
    simpl; try assumption.
  now apply np_sum_abs_proper.
Qed.

Lemma step_prefix output batch (self : ManhattanDistanceEvaluator) :
  _outputs self `prefix_of` _outputs (exec (step output batch) self) /\
  _targets self `prefix_of` _targets (exec (step output batch) self).
Proof.
  unfold exec.
  destruct (step_cases output batch self)
    as [(xs & ys & _ & _ & ->)
       |[(xs & e & _ & _ & _ & ->)|(_ & e & ->)]]; simpl.
  - split; apply prefix_app_r; reflexivity.
  - split; [apply prefix_app_r|]; reflexivity.
  - split; reflexivity.
Qed.

(** X11: [step] only ever appends: after any run of calls, returning or
    raising, the lists the evaluator had are still there, in order, at
    the front of the lists it has. *)
Theorem steps_only_append
    (calls : list (ModelOutput * gmap string Tensor))
    (self : ManhattanDistanceEvaluator) :
  _outputs self `prefix_of` _outputs (steps calls self) /\
  _targets self `prefix_of` _targets (steps calls self).
Proof.
  revert self. induction calls as [|c calls IH]; intros self.
  - split; reflexivity.
  - rewrite steps_cons.
    destruct (step_prefix (fst c) (snd c) self) as [Ho Ht].
    destruct (IH (exec (step (fst c) (snd c)) self)) as [Ho' Ht'].
    split; etransitivity; eassumption.
Qed.

End EvaluatorExtras.

(** ** The dataset: the text it accepts, and its bounds *)

Module DatasetExtras.

Import Dataset PyFacts DatasetFacts.

Lemma split_length (sep : ascii) (s : string) :
  length (split sep s) = S (occurrences sep s).
Proof.
  induction s as [|c s IH]; [reflexivity|]. simpl.
  destruct (Ascii.eqb c sep); simpl.
  - now rewrite IH.
  - destruct (split sep s) as [|w ws]; simpl in *; [discriminate|assumption].
Qed.

Lemma split_free (sep : ascii) (s : string) :
  occurrences sep s = 0 -> split sep s = [s].
Proof.
  intros H. pose proof (split_length sep s) as Hlen. rewrite H in Hlen.
  destruct (split sep s) as [|w [|w' ws]] eqn:Hs; try discriminate.
  now rewrite (split_single sep s w Hs).
Qed.

(** A piece free of the separator, the separator, and the rest. *)
Lemma split_piece (sep : ascii) (p rest : string) :
  occurrences sep p = 0 ->
  split sep (p ++ String sep rest) = p :: split sep rest.
Proof.
  induction p as [|c p IH]; simpl.
  - intros _. now rewrite Ascii.eqb_refl.
  - destruct (Ascii.eqb c sep); [discriminate|]. simpl.
    intros H. now rewrite (IH H).
Qed.

(** Joining pieces free of the separator and splitting again gives the
    pieces back. *)
Lemma split_join (sep : ascii) (pieces : list string) :
  pieces <> [] ->
  Forall (fun p => occurrences sep p = 0) pieces ->
  split sep (join sep pieces) = pieces.
Proof.
  induction pieces as [|p pieces IH]; [congruence|].
  intros _ Hfree. inversion Hfree as [|? ? Hp Hrest]; subst.
  destruct pieces as [|q pieces].
  - simpl. now apply split_free.
  - change (join sep (p :: q :: pieces))
      with (p ++ String sep (join sep (q :: pieces))).
    rewrite (split_piece sep p _ Hp). f_equal.
    apply IH; [discriminate | assumption].
Qed.

(** Splitting and joining again gives the text back. *)
Lemma join_split (sep : ascii) (s : string) : join sep (split sep s) = s.
Proof.
  induction s as [|c s IH]; [reflexivity|]. simpl.
  destruct (Ascii.eqb_spec c sep) as [->|Hne].
  - destruct (split sep s) as [|w ws] eqn:Hs; [now apply split_not_nil in Hs|].
    change (join sep (EmptyString :: w :: ws))
      with (String sep (join sep (w :: ws))).
    now rewrite IH.
  - destruct (split sep s) as [|w ws] eqn:Hs; [now apply split_not_nil in Hs|].
    destruct ws as [|w' ws].
    + simpl in *. now rewrite IH.
    + change (join sep (String c w :: w' :: ws))
        with (String c (w ++ String sep (join sep (w' :: ws)))).
      f_equal. exact IH.
Qed.

Lemma parsed_lines_length (text : string) :
  length (parsed_lines text) = occurrences newline text - 1.
Proof.
  unfold parsed_lines. rewrite slice_inner_length, split_length. lia.
Qed.

Lemma np_getitem_negative {A} (a : list A) (i : Z) :
  (0 <= i < Z.of_nat (length a))%Z ->
  np_getitem a (i - Z.of_nat (length a)) = np_getitem a i.
Proof.
  intros Hi.
  destruct (np_getitem_in_bounds a i) as (x & -> & Hx); [lia|].
  destruct (np_getitem_in_bounds a (i - Z.of_nat (length a)))
    as (y & -> & Hy); [lia|].
  replace ((i - Z.of_nat (length a)) mod Z.of_nat (length a))%Z
    with (i mod Z.of_nat (length a))%Z in Hy.
  - congruence.
  - symmetry.
    replace (i - Z.of_nat (length a))%Z
      with (i + -1 * Z.of_nat (length a))%Z by lia.
    apply Z_mod_plus_full.
Qed.

(** X20: [split] and [join] undo each other: joining the pieces of a
    text gives the text back, and splitting the join of pieces that are
    free of the separator gives the pieces back; a text with [k]
    separators has [k + 1] pieces. *)
Theorem split_and_join_round_trip (sep : ascii) (s : string)
    (pieces : list string) :
  join sep (split sep s) = s /\
  length (split sep s) = S (occurrences sep s) /\
  (pieces <> [] ->
   Forall (fun p => occurrences sep p = 0) pieces ->
   split sep (join sep pieces) = pieces).
Proof.
  split; [apply join_split|]. split; [apply split_length|].
  apply split_join.
Qed.

Section World.

Context {F : Type}.
Variable py_float : string -> result F.
Variable float32 : F -> F.
Variable requests_get : string -> result string.

Lemma constructed_parallel (ds : TwoSpiralDataset F) :
  Dataset.__init__ py_float float32 requests_get = Ok ds ->
  length (pos ds) = length (target ds).
Proof.
  intros Hinit.
  destruct (init_ok_fetched _ _ _ ds Hinit) as [text Hget].
  destruct (init_ok_inv _ _ _ text ds Hget Hinit) as (rs & _ & ->).
  destruct (stored_lengths float32 rs) as [Hpos Htgt]. congruence.
Qed.

Lemma for_lines_app before rest rs s :
  Forall2 (parses py_float) before rs ->
  for_lines py_float (before ++ rest) s
  = for_lines py_float rest (appended s rs).
Proof.
  intros H. revert s.
  induction H as [|line r before rs Hr _ IH]; intros s; simpl.
  - now rewrite appended_nil.
  - rewrite (exec_bind _ _ _ _ _ (parse_line_ok py_float line r s Hr)).
    now rewrite IH, appended_cons.
Qed.

Lemma init_raises_at text before line after e :
  requests_get url = Ok text ->
  parsed_lines text = (before ++ line :: after)%list ->
  Forall (line_ok py_float) before ->
  (forall s, exists s', parse_line py_float line s = (Raise e, s')) ->
  Dataset.__init__ py_float float32 requests_get = Raise e.
Proof.
  intros Hget Hlines Hbefore Hline.
  apply Forall2_parses_ok in Hbefore as [rs Hrs].
  unfold Dataset.__init__. rewrite Hget, Hlines.
  rewrite (for_lines_app before (line :: after) rs _ Hrs). simpl.
  destruct (Hline (appended {| l_pos := []; l_target := [] |} rs))
    as [s' Hs'].
  now rewrite (raise_bind _ _ _ _ _ Hs').
Qed.

(** X12: the first and the last piece of the fetched text are never
    parsed: for a text made of pieces joined by newlines, the parsed
    lines are the pieces between the first and the last, and the
    constructor returns their records whatever the first piece (the
    header) and the last one are.  So the last line of a text that does
    not end in a newline is dropped. *)
Theorem init_ignores_first_and_last_piece
    (first last : string) (inner : list string) (rs : list (F * F * F)) :
  requests_get url = Ok (join newline (first :: inner ++ [last])) ->
  Forall (fun p => occurrences newline p = 0) (first :: inner ++ [last]) ->
  Forall2 (parses py_float) inner rs ->
  parsed_lines (join newline (first :: inner ++ [last])) = inner /\
  Dataset.__init__ py_float float32 requests_get = Ok (stored float32 rs).
Proof.
  intros Hget Hfree Hrs.
  assert (Hlines : parsed_lines (join newline (first :: inner ++ [last]))
                   = inner).
  { unfold parsed_lines. rewrite split_join by (discriminate || assumption).
    apply slice_inner. }
  split; [assumption|].
  apply (init_ok _ _ _ (join newline (first :: inner ++ [last])));
    [assumption|]. now rewrite Hlines.
Qed.

(** X13: the number of records of a constructed dataset is the number
    of newline characters of the fetched text less one, and 0 when the
    text has no newline at all. *)
Theorem record_count_from_newlines
    (text : string) (ds : TwoSpiralDataset F) :
  requests_get url = Ok text ->
  Dataset.__init__ py_float float32 requests_get = Ok ds ->
  exists n : nat,
    outcome __len__ ds = Ok n /\
    (Z.of_nat n = Z.max 0 (Z.of_nat (occurrences newline text) - 1))%Z.
Proof.
  intros Hget Hinit.
  destruct (init_ok_inv _ _ _ text ds Hget Hinit) as (rs & Hrs & ->).
  destruct (stored_lengths float32 rs) as [_ Htgt].
  exists (length (target (stored float32 rs))).
  split; [reflexivity|].
  rewrite Htgt, <- (Forall2_length _ _ _ Hrs), parsed_lines_length. lia.
Qed.


Lemma getitem_returns_iff_in_bounds_aux (ds : TwoSpiralDataset F) :
  Dataset.__init__ py_float float32 requests_get = Ok ds ->
  forall i : Z,
    (exists item, outcome (__getitem__ i) ds = Ok item) <->
    (- Z.of_nat (length (target ds)) <= i < Z.of_nat (length (target ds)))%Z.
Proof.
  intros Hinit i. pose proof (constructed_parallel ds Hinit) as Hlen.
  split.
  - intros [item Hitem].
    destruct (decide (- Z.of_nat (length (target ds)) <= i
                      < Z.of_nat (length (target ds)))%Z) as [Hi|Hi];
      [assumption|].
    unfold outcome, __getitem__, bind, get, lift in Hitem.
    rewrite np_getitem_out_of_bounds in Hitem by now rewrite Hlen.
    discriminate Hitem.
  - intros Hi. rewrite <- Hlen in Hi.
    destruct (getitem_in_bounds ds i Hlen Hi) as (x & y & t & _ & _ & Hitem).
    exists (example x y t). unfold outcome. now rewrite Hitem.
Qed.


(** X16: negative indices count from the end: on a constructed dataset
    of [n] records, index [i - n] reads what index [i] reads, for every
    [i] from 0 to [n - 1]. *)
Theorem getitem_negative_index (ds : TwoSpiralDataset F) (i : Z) :
  Dataset.__init__ py_float float32 requests_get = Ok ds ->
  (0 <= i < Z.of_nat (length (target ds)))%Z ->
  __getitem__ (i - Z.of_nat (length (target ds))) ds = __getitem__ i ds.
Proof.
  intros Hinit Hi. pose proof (constructed_parallel ds Hinit) as Hlen.
  unfold __getitem__, bind, get, lift.
  rewrite (np_getitem_negative (target ds) i Hi).
  rewrite <- Hlen in *.
  now rewrite (np_getitem_negative (pos ds) i Hi).
Qed.

(** X17: the constructor raises at the first parsed line that is not
    well formed, whatever follows it: the unpacking error of its number
    of fields when that is not three, else what [float()] raises on the
    first of its fields, in the order x, y, label, that it refuses. *)
Theorem init_raises_at_first_bad_line
    (text : string) (before after : list string) (line : string) :
  requests_get url = Ok text ->
  parsed_lines text = (before ++ line :: after)%list ->
  Forall (line_ok py_float) before ->
  (length (split tab line) <> 3 ->
   Dataset.__init__ py_float float32 requests_get
   = Raise (UnpackError (length (split tab line)))) /\
  (forall a b c e,
     split tab line = [a; b; c] ->
     py_float a = Raise e \/
     (exists x, py_float a = Ok x /\ py_float b = Raise e) \/
     (exists x y,
        py_float a = Ok x /\ py_float b = Ok y /\ py_float c = Raise e) ->
     Dataset.__init__ py_float float32 requests_get = Raise e).
Proof.
  intros Hget Hlines Hbefore. split.
  - intros Hlen.
    apply (init_raises_at text before line after _ Hget Hlines Hbefore).
    intros s. exists s. unfold parse_line, bind, lift, unpack3.
    destruct (split tab line) as [|a [|b [|c [|d fields]]]];
      simpl in *; congruence.
  - intros a b c e Hsplit Hfields.
    apply (init_raises_at text before line after _ Hget Hlines Hbefore).
    intros s. unfold parse_line, bind, lift. rewrite Hsplit. simpl.
    destruct Hfields as [Ha|[(x & Ha & Hb)|(x & y & Ha & Hb & Hc)]].
    + rewrite Ha. now eexists.
    + rewrite Ha, Hb. now eexists.
    + rewrite Ha, Hb. simpl. rewrite Hc. now eexists.
Qed.

End World.

Lemma init_ignores_first_and_last_piece_witness :
  parsed_lines
    (join newline
       (Fixture.line ["x"; "y"; "label"]
        :: [Fixture.line ["1"; "2.5"; "0"]]
           ++ [Fixture.line ["-0.5"; "0.25"; "1"]]))
  = [Fixture.line ["1"; "2.5"; "0"]] /\
  Dataset.__init__ Fixture.py_float Fixture.float32
    Fixture.requests_get_unterminated
  = Ok (stored Fixture.float32 [(1, 2.5, 0)%Q]).
Proof.
  apply (init_ignores_first_and_last_piece Fixture.py_float Fixture.float32
           Fixture.requests_get_unterminated
           (Fixture.line ["x"; "y"; "label"])
           (Fixture.line ["-0.5"; "0.25"; "1"])
           [Fixture.line ["1"; "2.5"; "0"]] [(1, 2.5, 0)%Q]).
  - reflexivity.
  - repeat constructor.
  - repeat constructor.
    exists "1", "2.5", "0". repeat split; reflexivity.
Defined.

Lemma record_count_from_newlines_witness :
  exists n : nat,
    outcome __len__ Fixture.dataset = Ok n /\
    (Z.of_nat n
     = Z.max 0 (Z.of_nat (occurrences newline Fixture.text) - 1))%Z.
Proof.
  apply (record_count_from_newlines Fixture.py_float Fixture.float32
           Fixture.requests_get Fixture.text Fixture.dataset).
  - reflexivity.
  - vm_compute. reflexivity.
Defined.



Lemma getitem_negative_index_witness :
  __getitem__ (1 - Z.of_nat (length (target Fixture.dataset))) Fixture.dataset
  = __getitem__ 1 Fixture.dataset.
Proof.
  apply (getitem_negative_index Fixture.py_float Fixture.float32
           Fixture.requests_get Fixture.dataset 1).
  - vm_compute. reflexivity.
  - simpl. lia.
Defined.

Lemma init_raises_at_first_bad_line_witness :
  Dataset.__init__ Fixture.py_float Fixture.float32 Fixture.requests_get_wide
  = Raise (UnpackError 4) /\
  Dataset.__init__ Fixture.py_float Fixture.float32 Fixture.requests_get_words
  = Raise (FloatValueError "north").
Proof.
  split.
  - apply (proj1 (init_raises_at_first_bad_line Fixture.py_float
                    Fixture.float32 Fixture.requests_get_wide
                    (Fixture.tsv [["x"; "y"; "label"]; ["1"; "2"; "0"; "7"]])
                    [] [] (Fixture.line ["1"; "2"; "0"; "7"])
                    eq_refl eq_refl (List.Forall_nil _))).
    vm_compute. lia.
  - apply (proj2 (init_raises_at_first_bad_line Fixture.py_float
                    Fixture.float32 Fixture.requests_get_words
                    (Fixture.tsv [["x"; "y"; "label"]; ["1"; "north"; "east"]])
                    [] [] (Fixture.line ["1"; "north"; "east"])
                    eq_refl eq_refl (List.Forall_nil _))
             "1" "north" "east").
    + reflexivity.
    + right. left. exists 1%Q. split; reflexivity.
Defined.

End DatasetExtras.

(** ** The index lists of the samplers *)

Module ScriptExtras.

Import Dataset Script PyFacts DatasetFacts.

Lemma range_app (a b c : nat) :
  a <= b -> b <= c -> (range a b ++ range b c)%list = range a c.
Proof.
  intros Hab Hbc. unfold range. rewrite <- map_app. f_equal.
  replace (c - a) with ((b - a) + (c - b)) by lia.
  rewrite seq_app. do 2 f_equal. lia.
Qed.

Lemma elem_of_range (i : Z) (a b : nat) :
  i ∈ range a b <-> (Z.of_nat a <= i < Z.of_nat b)%Z.
Proof.
  unfold range. change (map Z.of_nat ?l) with (Z.of_nat <$> l).
  rewrite list_elem_of_fmap. split.
  - intros (j & -> & Hj). apply elem_of_seq in Hj. lia.
  - intros Hi. exists (Z.to_nat i). split; [lia|]. apply elem_of_seq. lia.
Qed.

Lemma range_lookup (a b k : nat) :
  a + k < b -> range a b !! k = Some (Z.of_nat (a + k)).
Proof.
  intros Hk. unfold range. change (map Z.of_nat ?l) with (Z.of_nat <$> l).
  rewrite list_lookup_fmap, lookup_seq_lt by lia. reflexivity.
Qed.

Lemma range_NoDup (a b : nat) : NoDup (range a b).
Proof.
  unfold range. change (map Z.of_nat ?l) with (Z.of_nat <$> l).
  apply NoDup_fmap_2; [apply Nat2Z.inj' | apply NoDup_seq].
Qed.

Lemma splits_are_range :
  (train_indices ++ val_indices ++ test_indices)%list = range 0 1000.
Proof.
  unfold train_indices, val_indices, test_indices.
  rewrite (range_app 800 900 1000) by lia.
  now rewrite (range_app 0 800 1000) by lia.
Qed.

(** X18: the index lists of the three samplers are the indices 0 to 999,
    each once and in order, so no example is in two of the splits; the
    [k]-th index of the test sampler is [900 + k]; and on a constructed
    dataset every one of these indices reads a record exactly when the
    dataset has at least 1000 records. *)
Theorem sampler_indices_cover_first_thousand {F : Type}
    (py_float : string -> result F) (float32 : F -> F)
    (requests_get : string -> result string) (ds : TwoSpiralDataset F) :
  Dataset.__init__ py_float float32 requests_get = Ok ds ->
  (train_indices ++ val_indices ++ test_indices)%list = range 0 1000 /\
  NoDup (train_indices ++ val_indices ++ test_indices)%list /\
  (forall k : nat, k < 100 -> test_indices !! k = Some (ex_ds_pos k)) /\
  (Forall (fun i => exists item, outcome (__getitem__ i) ds = Ok item)
     (train_indices ++ val_indices ++ test_indices)%list <->
   1000 <= length (target ds)).
Proof.
  intros Hinit.
  split; [apply splits_are_range|].
  split; [rewrite splits_are_range; apply range_NoDup|].
  split.
  { intros k Hk. unfold test_indices, ex_ds_pos.
    rewrite range_lookup by lia. f_equal. lia. }
  rewrite splits_are_range, Forall_forall.
  pose proof (DatasetExtras.getitem_returns_iff_in_bounds_aux
                py_float float32 requests_get ds Hinit) as Hbounds.
  split.
  - intros Hall.
    assert (Hlast : (999%Z : Z) ∈ range 0 1000)
      by (apply elem_of_range; lia).
    apply Hall, Hbounds in Hlast. lia.
  - intros Hlen i Hi. apply elem_of_range in Hi. apply Hbounds. lia.
Qed.

Lemma sampler_indices_cover_first_thousand_witness :
  (train_indices ++ val_indices ++ test_indices)%list = range 0 1000 /\
  NoDup (train_indices ++ val_indices ++ test_indices)%list /\
  (forall k : nat, k < 100 -> test_indices !! k = Some (ex_ds_pos k)) /\
  (Forall (fun i => exists item,
             outcome (__getitem__ i) Fixture.dataset = Ok item)
     (train_indices ++ val_indices ++ test_indices)%list <->
   1000 <= length (target Fixture.dataset)).
Proof.
  apply (sampler_indices_cover_first_thousand Fixture.py_float
           Fixture.float32 Fixture.requests_get Fixture.dataset).
  vm_compute. reflexivity.
Defined.

End ScriptExtras.

(** ** The evaluator in numpy's arithmetic *)

Module NumpyEvaluatorFacts.

Import NumpyEvaluator PyFacts.

Section Values.

Context {Num : Type}.

Lemma tolist_T1 (xs : list Num) : tolist (T1 xs) = PyList (map PyNum xs).
Proof. unfold T1. simpl. now rewrite map_map. Qed.

Lemma flat_numbers (xs : list Num) : flat (map PyNum xs) = Some xs.
Proof. induction xs as [|x xs IH]; simpl; [reflexivity|]. now rewrite IH. Qed.

Lemma np_yields_functional key (output : ModelOutput Num) t t' :
  yields key output t -> yields key output t' -> t = t'.
Proof.
  unfold yields. destruct key as [k|].
  - intros (d & -> & Hd) (d' & [= <-] & Hd'). congruence.
  - congruence.
Qed.

(** [step] when the output side is the tensor [t]: what is left to do
    depends on [t] and on the batch. *)
Lemma np_step_yields output batch (self : ManhattanDistanceEvaluator Num) t :
  yields (_model_output_key self) output t ->
  step output batch self
  = match tolist t with
    | PyNum _ => (Raise NotIterable, self)
    | PyList xs =>
        match batch !! _batch_target_key self with
        | None =>
            (Raise (KeyError (_batch_target_key self)),
             set_outputs (_outputs self ++ xs) self)
        | Some u =>
            match tolist u with
            | PyNum _ =>
                (Raise NotIterable, set_outputs (_outputs self ++ xs) self)
            | PyList ys => (Ok tt, grown xs ys self)
            end
        end
    end.
Proof.
  intros Ht. unfold yields in Ht.
  unfold step, bind, get, lift, ret, batch_getitem. simpl.
  destruct (_model_output_key self) as [k|].
  - destruct Ht as (d & -> & Hd). simpl. rewrite Hd. simpl.
    destruct (tolist t) as [x|xs]; [reflexivity|]. simpl.
    destruct (batch !! _batch_target_key self) as [u|]; [|reflexivity].
    simpl. destruct (tolist u); reflexivity.
  - rewrite Ht. simpl.
    destruct (tolist t) as [x|xs]; [reflexivity|]. simpl.
    destruct (batch !! _batch_target_key self) as [u|]; [|reflexivity].
    simpl. destruct (tolist u); reflexivity.
Qed.

(** [step] when the output side is no tensor at all. *)
Lemma np_step_no_tensor output batch (self : ManhattanDistanceEvaluator Num) :
  (forall t, ~ yields (_model_output_key self) output t) ->
  exists e, step output batch self = (Raise e, self).
Proof.
  unfold yields, step, bind, get, lift, ret. simpl.
  destruct (_model_output_key self) as [k|]; intros Hno.
  - destruct output as [t|d]; simpl; [now eexists|].
    destruct (d !! k) as [t|] eqn:Hd; simpl; [|now eexists].
    exfalso. apply (Hno t). now exists d.
  - destruct output as [t|d]; simpl; [|now eexists].
    exfalso. now apply (Hno t).
Qed.

Lemma np_yields_or_not key (output : ModelOutput Num) :
  (exists t, yields key output t) \/ (forall t, ~ yields key output t).
Proof.
  unfold yields. destruct key as [k|].
  - destruct output as [t|d].
    + right. intros t' (d & [=] & _).
    + destruct (d !! k) as [t|] eqn:Hd.
      * left. exists t, d. now split.
      * right. intros t (d' & [= <-] & Hd'). congruence.
  - destruct output as [t|d].
    + left. now exists t.
    + right. intros t [=].
Qed.

Lemma np_steps_cons call calls (self : ManhattanDistanceEvaluator Num) :
  steps (call :: calls) self
  = steps calls (exec (step (fst call) (snd call)) self).
Proof. reflexivity. Qed.

Lemma np_step_records key target_key call (ps : list (Num * Num)) self :
  _model_output_key self = key ->
  _batch_target_key self = target_key ->
  records key target_key call ps ->
  step (fst call) (snd call) self
  = (Ok tt, grown (map PyNum (map fst ps)) (map PyNum (map snd ps)) self).
Proof.
  intros <- <- [Hout Htgt].
  rewrite (np_step_yields _ _ _ _ Hout), tolist_T1, Htgt, tolist_T1.
  reflexivity.
Qed.

(** A run of calls that each record their pairs leaves the outputs and
    the targets of all the pairs appended, in call order. *)
Lemma np_steps_records key target_key calls
    (batches : list (list (Num * Num))) self :
  _model_output_key self = key ->
  _batch_target_key self = target_key ->
  Forall2 (records key target_key) calls batches ->
  steps calls self
  = grown (map PyNum (map fst (concat batches)))
      (map PyNum (map snd (concat batches))) self.
Proof.
  intros Hk Ht H. revert self Hk Ht.
  induction H as [|c ps calls batches Hc _ IH]; intros self Hk Ht.
  - simpl. unfold grown, set_targets, set_outputs. simpl.
    rewrite !app_nil_r. now destruct self.
  - rewrite np_steps_cons. unfold exec.
    rewrite (np_step_records key target_key c ps self Hk Ht Hc).
    simpl. rewrite IH by (simpl; assumption).
    unfold grown, set_targets, set_outputs. simpl.
    now rewrite !map_app, !app_assoc.
Qed.

Section Calculate.

Variable np : Numpy Num.

Lemma np_subtract_same_length (a b : list (Elem np)) :
  length a = length b ->
  np_subtract np a b = Ok (zip_with (subtract np) a b).
Proof. intros H. unfold np_subtract. now rewrite decide_True. Qed.

Lemma manhattan_pairs (ps : list (Num * Num)) :
  manhattan np (map PyNum (map fst ps)) (map PyNum (map snd ps))
  = Ok (sum_abs_diff np ps).
Proof.
  unfold manhattan, sum_abs_diff. rewrite !flat_numbers.
  rewrite np_subtract_same_length
    by (unfold np_array; now rewrite !length_map).
  do 2 f_equal. unfold np_abs, np_array.
  generalize (dtype_of np (map fst ps)) (dtype_of np (map snd ps)).
  intros d d'. induction ps as [|[o t] ps IH]; [reflexivity|].
  simpl. now rewrite IH.
Qed.

(** What [calculate] returns after a run of recorded pairs that started
    with both lists empty. *)
Lemma np_calculate_recorded key target_key calls batches self :
  _model_output_key self = key ->
  _batch_target_key self = target_key ->
  _outputs self = [] -> _targets self = [] ->
  Forall2 (records key target_key) calls batches ->
  exists r,
    outcome (calculate np) (steps calls self) = Ok r /\
    score r = sum_abs_diff np (concat batches).
Proof.
  intros Hk Ht Ho Hg H.
  rewrite (np_steps_records key target_key calls batches self Hk Ht H).
  unfold outcome, calculate, bind, get, lift, ret, grown. simpl.
  rewrite Ho, Hg. simpl. rewrite manhattan_pairs. simpl.
  eexists. split; reflexivity.
Qed.

End Calculate.

End Values.

End NumpyEvaluatorFacts.

Module NumpyEvaluatorClaims.

Import NumpyEvaluator PyFacts NumpyEvaluatorFacts.



(** X1: [step] returns exactly when the output side (the model's
    output, under the configured key when there is one) is a tensor of
    one dimension or more and the batch holds a tensor of one dimension
    or more under the target key; it then appends what [tolist()] gives
    for the rows of the one to the outputs and for the rows of the other
    to the targets, numbers or lists, and changes nothing else. *)
Theorem step_returns_iff_both_have_rows {Num : Type}
    (output : ModelOutput Num) (batch : gmap string (Tensor Num))
    (self : ManhattanDistanceEvaluator Num) :
  (outcome (step output batch) self = Ok tt <->
   exists rows rows',
     yields (_model_output_key self) output (TN rows) /\
     batch !! _batch_target_key self = Some (TN rows')) /\
  (forall rows rows',
     yields (_model_output_key self) output (TN rows) ->
     batch !! _batch_target_key self = Some (TN rows') ->
     exec (step output batch) self
     = grown (map tolist rows) (map tolist rows') self).
Proof.
  split.
  - split.
    + unfold outcome. intros Hok.
      destruct (np_yields_or_not (_model_output_key self) output)
        as [[t Ht]|Hno].
      * rewrite (np_step_yields output batch self t Ht) in Hok.
        destruct t as [x|rows]; simpl in Hok; [discriminate Hok|].
        destruct (batch !! _batch_target_key self) as [[y|rows']|];
          simpl in Hok; try discriminate Hok.
        now exists rows, rows'.
      * destruct (np_step_no_tensor output batch self Hno) as [e He].
        rewrite He in Hok. discriminate Hok.
    + intros (rows & rows' & Ht & Hb). unfold outcome.
      rewrite (np_step_yields output batch self _ Ht). simpl.
      now rewrite Hb.
  - intros rows rows' Ht Hb. unfold exec.
    rewrite (np_step_yields output batch self _ Ht). simpl.
    now rewrite Hb.
Qed.

(** X3: when the output side is a tensor of one dimension or more and
    the batch has no entry under the target key, or a 0-d tensor there,
    [step] raises (KeyError of the key when it is missing) only after
    the outputs were appended: the outputs have grown and the targets
    have not. *)
Theorem step_target_failure_keeps_outputs {Num : Type}
    (output : ModelOutput Num) (batch : gmap string (Tensor Num))
    (self : ManhattanDistanceEvaluator Num) (rows : list (Tensor Num)) :
  yields (_model_output_key self) output (TN rows) ->
  batch !! _batch_target_key self = None \/
  (exists y, batch !! _batch_target_key self = Some (T0 y)) ->
  step output batch self
  = (Raise match batch !! _batch_target_key self with
           | None => KeyError (_batch_target_key self)
           | Some _ => NotIterable
           end,
     set_outputs (_outputs self ++ map tolist rows) self).
Proof.
  intros Ht Hb. rewrite (np_step_yields output batch self _ Ht). simpl.
  destruct Hb as [->|[y ->]]; reflexivity.
Qed.

Lemma step_target_failure_keeps_outputs_witness :
  step (fst Fixture.int_matrix_call) (snd Fixture.int_matrix_call)
    (__init__ None "target")
  = (Raise NotIterable,
     set_outputs
       [PyList [PyNum 4%Z; PyNum 6%Z]; PyList [PyNum 5%Z; PyNum 8%Z]]
       (__init__ None "target")).
Proof.
  apply (step_target_failure_keeps_outputs (fst Fixture.int_matrix_call)
           (snd Fixture.int_matrix_call) (__init__ None "target")
           [T1 [4; 6]%Z; T1 [5; 8]%Z]).
  - reflexivity.
  - right. exists 1%Z. reflexivity.
Defined.

(** X10: [reset] starts a new epoch from any state, also a spoiled one:
    after [reset] and a run of recorded pairs, [calculate] returns the
    sum of |output - target|, as numpy computes it, over the pairs
    recorded since the [reset], whatever the lists held before. *)
Theorem reset_starts_a_new_epoch {Num : Type}
    (np : Numpy Num) (self : ManhattanDistanceEvaluator Num)
    (calls : list (ModelOutput Num * gmap string (Tensor Num)))
    (batches : list (list (Num * Num))) :
  Forall2 (records (_model_output_key self) (_batch_target_key self))
    calls batches ->
  exists r,
    outcome (calculate np) (steps calls (exec reset self)) = Ok r /\
    score r = sum_abs_diff np (concat batches).
Proof.
  intros H.
  exact (np_calculate_recorded np (_model_output_key self)
           (_batch_target_key self) calls batches (exec reset self)
           eq_refl eq_refl eq_refl eq_refl H).
Qed.

Lemma reset_starts_a_new_epoch_witness :
  exists r,
    outcome (calculate Fixture.int64)
      (steps (map Fixture.int_call Fixture.int_batches)
         (exec reset
            (steps [Fixture.int_untargeted_call]
               (__init__ (Some "out") "target"))))
    = Ok r /\
    score r = sum_abs_diff Fixture.int64 (concat Fixture.int_batches).
Proof.
  apply (reset_starts_a_new_epoch Fixture.int64
           (steps [Fixture.int_untargeted_call]
              (__init__ (Some "out") "target"))
           (map Fixture.int_call Fixture.int_batches) Fixture.int_batches).
  repeat constructor; eexists; (split; [reflexivity | vm_compute; reflexivity]).
Defined.

End NumpyEvaluatorClaims.
